(** * SecureBackupPanel: key-backup status, signature classification, actions

  A shallow embedding of
  [src/components/views/settings/SecureBackupPanel.tsx].

  The component keeps a React state record ([IState]), a private
  [unmounted] flag, and reacts to client notifications, to button presses
  and to the settlement of the promises it awaits.  The state is modelled
  as a record, [setState] as the application of a partial record, and
  every [await] as a point where the method stops and is resumed by an
  event carrying the settled value. *)

From Stdlib Require Import Bool List String ZArith Lia.
Import ListNotations.
Open Scope string_scope.
Open Scope Z_scope.

Set Implicit Arguments.

(** ** JavaScript values used by the component *)

Module JS.

(** A thrown [Error] object (always truthy). *)
Record JsError : Type := {
  message : string
}.

(** A settled promise: fulfilled with a value or rejected with the thrown
    value. *)
Inductive Settled (A : Type) : Type :=
| Resolved (a : A)
| Rejected (e : JsError).
Arguments Resolved {A} a.
Arguments Rejected {A} e.

(** Truthiness of a string: only the empty string is falsy. *)
Definition truthy_string (s : string) : bool :=
  match s with
  | EmptyString => false
  | String _ _ => true
  end.

(** Truthiness of a value that is [null]/[undefined] or an object. *)
Definition truthy_obj {A : Type} (o : option A) : bool :=
  match o with
  | Some _ => true
  | None => false
  end.

(** Truthiness of a value that is [null]/[undefined] or a string. *)
Definition truthy_ostring (o : option string) : bool :=
  match o with
  | Some s => truthy_string s
  | None => false
  end.

(** Truthiness of a value that is [null] or a boolean. *)
Definition truthy_obool (o : option bool) : bool :=
  match o with
  | Some b => b
  | None => false
  end.

(** [a || b] on a nullable string and a string. *)
Definition or_string (a : option string) (b : string) : string :=
  match a with
  | Some s => if truthy_string s then s else b
  | None => b
  end.

(** [a === b] on strings. *)
Definition strict_eq (a b : string) : bool := String.eqb a b.

End JS.

Import JS.

(** ** Records of the SDK read by the component

  Modelled from the spec: the declarations of [IKeyBackupInfo],
  [TrustInfo], the signature records and the device records live in the
  SDK and are not part of the sources; the fields are the ones of the
  data model (section 3), under the names the component reads them by. *)

Record IKeyBackupInfo : Type := {
  version : string;
  algorithm : string
}.

(** A known device: [deviceId], [getDisplayName()], [getFingerprint()]. *)
Record DeviceInfo : Type := {
  dev_deviceId : string;
  getDisplayName : option string;
  getFingerprint : string
}.

Record DeviceTrustLevel : Type := {
  isVerified : bool
}.

(** One signature over the backup ([sig] in [render]). *)
Record SigInfo : Type := {
  deviceId : string;
  device : option DeviceInfo;
  crossSigningId : option string;
  valid : bool;
  deviceTrust : DeviceTrustLevel
}.

Record TrustInfo : Type := {
  sigs : list SigInfo;
  trusted_locally : bool
}.

(** What [MatrixClientPeg.get()] answers synchronously during [render]. *)
Record Client : Type := {
  getDeviceEd25519Key : string;
  getCrossSigningId : string;
  getKeyBackupEnabled : bool
}.

(** ** Classification of one signature *)

(** The ten messages [sigStatus] can be set to.  The two unknown-signer
  messages are given [sig.deviceId]; the four messages about another
  session render [deviceName], which is [null] without a device. *)
Inductive Category : Type :=
| ValidFromThisUser
| InvalidFromThisUser
| FromUnknownUser (id : string)
| FromUnknownSession (id : string)
| ValidFromThisSession
| InvalidFromThisSession
| ValidFromVerifiedSession (name : option string)
| ValidFromUnverifiedSession (name : option string)
| InvalidFromVerifiedSession (name : option string)
| InvalidFromUnverifiedSession (name : option string).

(** Position of a category in the order of section 4.1. *)
Definition rule_number (c : Category) : nat :=
  match c with
  | ValidFromThisUser => 1
  | InvalidFromThisUser => 2
  | FromUnknownUser _ => 3
  | FromUnknownSession _ => 4
  | ValidFromThisSession => 5
  | InvalidFromThisSession => 6
  | ValidFromVerifiedSession _ => 7
  | ValidFromUnverifiedSession _ => 8
  | InvalidFromVerifiedSession _ => 9
  | InvalidFromUnverifiedSession _ => 10
  end%nat.

Section Classifier.

Variable cli : Client.

(** [sig.device ? sig.device.getDisplayName() || sig.device.deviceId : null] *)
Definition deviceName (sig : SigInfo) : option string :=
  match device sig with
  | Some d => Some (or_string (getDisplayName d) (dev_deviceId d))
  | None => None
  end.

(** [sig.device && sig.device.getFingerprint() === cli.getDeviceEd25519Key()] *)
Definition fromThisDevice (sig : SigInfo) : bool :=
  match device sig with
  | Some d => strict_eq (getFingerprint d) (getDeviceEd25519Key cli)
  | None => false
  end.

(** [sig.crossSigningId && sig.deviceId === cli.getCrossSigningId()] *)
Definition fromThisUser (sig : SigInfo) : bool :=
  truthy_ostring (crossSigningId sig)
  && strict_eq (deviceId sig) (getCrossSigningId cli).

(** The [if … else if …] chain of [render] that sets [sigStatus]; [None]
    is a [sigStatus] left [undefined] because no branch was taken. *)
Definition sigStatus (sig : SigInfo) : option Category :=
  if valid sig && fromThisUser sig then
    Some ValidFromThisUser
  else if negb (valid sig) && fromThisUser sig then
    Some InvalidFromThisUser
  else if truthy_ostring (crossSigningId sig) then
    Some (FromUnknownUser (deviceId sig))
  else if negb (truthy_obj (device sig)) then
    Some (FromUnknownSession (deviceId sig))
  else if valid sig && fromThisDevice sig then
    Some ValidFromThisSession
  else if negb (valid sig) && fromThisDevice sig then
    Some InvalidFromThisSession
  else if valid sig && isVerified (deviceTrust sig) then
    Some (ValidFromVerifiedSession (deviceName sig))
  else if valid sig && negb (isVerified (deviceTrust sig)) then
    Some (ValidFromUnverifiedSession (deviceName sig))
  else if negb (valid sig) && isVerified (deviceTrust sig) then
    Some (InvalidFromVerifiedSession (deviceName sig))
  else if negb (valid sig) && negb (isVerified (deviceTrust sig)) then
    Some (InvalidFromUnverifiedSession (deviceName sig))
  else
    None.

(** What is shown for the whole signature list: the per-signature
    statuses, replaced by one "not signed" message when the list is
    empty. *)
Inductive SigStatuses : Type :=
| Unsigned
| Statuses (l : list (option Category)).

Definition backupSigStatuses (t : TrustInfo) : SigStatuses :=
  if (List.length (sigs t) =? 0)%nat then Unsigned
  else Statuses (map sigStatus (sigs t)).

(** *** The chain as an ordered rule list

    A rule is a (predicate, category) pair; a rule list is read with
    [first_match].  [chain_rules] lists the conditions of the
    [if … else if …] chain of [render] in their order, each with the
    message of its branch: the predicates are the conditions of the
    source, word for word. *)
Definition Rule : Type := ((SigInfo -> bool) * (SigInfo -> Category))%type.

Definition chain_rules : list Rule :=
  [ (fun s => valid s && fromThisUser s,
     fun _ => ValidFromThisUser);
    (fun s => negb (valid s) && fromThisUser s,
     fun _ => InvalidFromThisUser);
    (fun s => truthy_ostring (crossSigningId s),
     fun s => FromUnknownUser (deviceId s));
    (fun s => negb (truthy_obj (device s)),
     fun s => FromUnknownSession (deviceId s));
    (fun s => valid s && fromThisDevice s,
     fun _ => ValidFromThisSession);
    (fun s => negb (valid s) && fromThisDevice s,
     fun _ => InvalidFromThisSession);
    (fun s => valid s && isVerified (deviceTrust s),
     fun s => ValidFromVerifiedSession (deviceName s));
    (fun s => valid s && negb (isVerified (deviceTrust s)),
     fun s => ValidFromUnverifiedSession (deviceName s));
    (fun s => negb (valid s) && isVerified (deviceTrust s),
     fun s => InvalidFromVerifiedSession (deviceName s));
    (fun s => negb (valid s) && negb (isVerified (deviceTrust s)),
     fun s => InvalidFromUnverifiedSession (deviceName s)) ].

Fixpoint first_match (rs : list Rule) (s : SigInfo) : option Category :=
  match rs with
  | [] => None
  | (p, k) :: rs' => if p s then Some (k s) else first_match rs' s
  end.

(** [wins rs s i c]: rule [i] (from 0) of [rs] holds of [s], produces
    [c], and no earlier rule holds. *)
Definition wins (rs : list Rule) (s : SigInfo) (i : nat) (c : Category) : Prop :=
  (exists p k, nth_error rs i = Some (p, k) /\ p s = true /\ k s = c)
  /\ (forall j p k, (j < i)%nat -> nth_error rs j = Some (p, k) -> p s = false).

End Classifier.

(** ** The component state *)

(** [IState], with [null] as [None] for the fields the constructor sets to
    [null]. *)
Record IState : Type := {
  loading : bool;
  error : option JsError;
  backupKeyStored : option bool;
  backupKeyCached : option bool;
  backupKeyWellFormed : option bool;
  secretStorageKeyInAccount : option bool;
  secretStorageReady : option bool;
  backupInfo : option IKeyBackupInfo;
  backupSigStatus : option TrustInfo;
  sessionsRemaining : Z
}.

(** One [key: value] entry of the object given to [setState]. *)
Inductive Field : Type :=
| F_loading (v : bool)
| F_error (v : option JsError)
| F_backupKeyStored (v : option bool)
| F_backupKeyCached (v : option bool)
| F_backupKeyWellFormed (v : option bool)
| F_secretStorageKeyInAccount (v : option bool)
| F_secretStorageReady (v : option bool)
| F_backupInfo (v : option IKeyBackupInfo)
| F_backupSigStatus (v : option TrustInfo)
| F_sessionsRemaining (v : Z).

Definition assign (s : IState) (f : Field) : IState :=
  match f with
  | F_loading v =>
      {| loading := v; error := error s;
         backupKeyStored := backupKeyStored s; backupKeyCached := backupKeyCached s;
         backupKeyWellFormed := backupKeyWellFormed s;
         secretStorageKeyInAccount := secretStorageKeyInAccount s;
         secretStorageReady := secretStorageReady s;
         backupInfo := backupInfo s; backupSigStatus := backupSigStatus s;
         sessionsRemaining := sessionsRemaining s |}
  | F_error v =>
      {| loading := loading s; error := v;
         backupKeyStored := backupKeyStored s; backupKeyCached := backupKeyCached s;
         backupKeyWellFormed := backupKeyWellFormed s;
         secretStorageKeyInAccount := secretStorageKeyInAccount s;
         secretStorageReady := secretStorageReady s;
         backupInfo := backupInfo s; backupSigStatus := backupSigStatus s;
         sessionsRemaining := sessionsRemaining s |}
  | F_backupKeyStored v =>
      {| loading := loading s; error := error s;
         backupKeyStored := v; backupKeyCached := backupKeyCached s;
         backupKeyWellFormed := backupKeyWellFormed s;
         secretStorageKeyInAccount := secretStorageKeyInAccount s;
         secretStorageReady := secretStorageReady s;
         backupInfo := backupInfo s; backupSigStatus := backupSigStatus s;
         sessionsRemaining := sessionsRemaining s |}
  | F_backupKeyCached v =>
      {| loading := loading s; error := error s;
         backupKeyStored := backupKeyStored s; backupKeyCached := v;
         backupKeyWellFormed := backupKeyWellFormed s;
         secretStorageKeyInAccount := secretStorageKeyInAccount s;
         secretStorageReady := secretStorageReady s;
         backupInfo := backupInfo s; backupSigStatus := backupSigStatus s;
         sessionsRemaining := sessionsRemaining s |}
  | F_backupKeyWellFormed v =>
      {| loading := loading s; error := error s;
         backupKeyStored := backupKeyStored s; backupKeyCached := backupKeyCached s;
         backupKeyWellFormed := v;
         secretStorageKeyInAccount := secretStorageKeyInAccount s;
         secretStorageReady := secretStorageReady s;
         backupInfo := backupInfo s; backupSigStatus := backupSigStatus s;
         sessionsRemaining := sessionsRemaining s |}
  | F_secretStorageKeyInAccount v =>
      {| loading := loading s; error := error s;
         backupKeyStored := backupKeyStored s; backupKeyCached := backupKeyCached s;
         backupKeyWellFormed := backupKeyWellFormed s;
         secretStorageKeyInAccount := v;
         secretStorageReady := secretStorageReady s;
         backupInfo := backupInfo s; backupSigStatus := backupSigStatus s;
         sessionsRemaining := sessionsRemaining s |}
  | F_secretStorageReady v =>
      {| loading := loading s; error := error s;
         backupKeyStored := backupKeyStored s; backupKeyCached := backupKeyCached s;
         backupKeyWellFormed := backupKeyWellFormed s;
         secretStorageKeyInAccount := secretStorageKeyInAccount s;
         secretStorageReady := v;
         backupInfo := backupInfo s; backupSigStatus := backupSigStatus s;
         sessionsRemaining := sessionsRemaining s |}
  | F_backupInfo v =>
      {| loading := loading s; error := error s;
         backupKeyStored := backupKeyStored s; backupKeyCached := backupKeyCached s;
         backupKeyWellFormed := backupKeyWellFormed s;
         secretStorageKeyInAccount := secretStorageKeyInAccount s;
         secretStorageReady := secretStorageReady s;
         backupInfo := v; backupSigStatus := backupSigStatus s;
         sessionsRemaining := sessionsRemaining s |}
  | F_backupSigStatus v =>
      {| loading := loading s; error := error s;
         backupKeyStored := backupKeyStored s; backupKeyCached := backupKeyCached s;
         backupKeyWellFormed := backupKeyWellFormed s;
         secretStorageKeyInAccount := secretStorageKeyInAccount s;
         secretStorageReady := secretStorageReady s;
         backupInfo := backupInfo s; backupSigStatus := v;
         sessionsRemaining := sessionsRemaining s |}
  | F_sessionsRemaining v =>
      {| loading := loading s; error := error s;
         backupKeyStored := backupKeyStored s; backupKeyCached := backupKeyCached s;
         backupKeyWellFormed := backupKeyWellFormed s;
         secretStorageKeyInAccount := secretStorageKeyInAccount s;
         secretStorageReady := secretStorageReady s;
         backupInfo := backupInfo s; backupSigStatus := backupSigStatus s;
         sessionsRemaining := v |}
  end.

(** ** What the awaited calls settle with

    Modelled from the spec: the client and secret-storage calls are the
    collaborators of section 6 and are not part of the sources; their
    results are inputs of the model. *)

(** [checkKeyBackup()]: the object destructured into [backupInfo] and
    [trustInfo]. *)
Record KeyBackupCheck : Type := {
  kbc_backupInfo : option IKeyBackupInfo;
  kbc_trustInfo : TrustInfo
}.

(** [getSessionBackupPrivateKey()]: nothing, a [Uint8Array], or a truthy
    value of another type. *)
Inductive CachedKey : Type :=
| KeyAbsent
| KeyUint8Array
| KeyOtherType.

(** The values awaited by [getUpdatedDiagnostics], in order. *)
Record DiagnosticsFetch : Type := {
  isKeyBackupKeyStored : bool;
  getSessionBackupPrivateKey : CachedKey;
  hasKey : bool;
  isSecretStorageReady : bool
}.

(** ** The component with its pending asynchronous work *)

(** A method stopped at an [await], or a dialog waiting for the user. *)
Inductive Pending : Type :=
| AwaitDiagnostics
| AwaitCheckKeyBackup
| AwaitGetKeyBackupVersion
| AwaitIsKeyBackupTrusted (info : option IKeyBackupInfo)
| AwaitDeleteKeyBackupVersion (v : string)
| AwaitAccessSecretStorage
| DialogCreateKeyBackup
| DialogDeleteBackup
| DialogRestoreKeyBackup.

Definition Pending_eq_dec (a b : Pending) : {a = b} + {a <> b}.
Proof.
  decide equality.
  - decide equality. decide equality; apply string_dec.
  - apply string_dec.
Defined.

Record Panel : Type := {
  state : IState;
  unmounted : bool;
  listening : bool;
  pending : list Pending
}.

(** [this.setState({...})]: the entries are written in order. *)
Definition setState (fs : list Field) (c : Panel) : Panel :=
  {| state := fold_left assign fs (state c);
     unmounted := unmounted c;
     listening := listening c;
     pending := pending c |}.

(** A call is issued and the caller (or nobody) waits for it. *)
Definition spawn (op : Pending) (c : Panel) : Panel :=
  {| state := state c;
     unmounted := unmounted c;
     listening := listening c;
     pending := pending c ++ [op] |}.

Fixpoint remove_one (op : Pending) (l : list Pending) : list Pending :=
  match l with
  | [] => []
  | x :: r => if Pending_eq_dec op x then r else x :: remove_one op r
  end.

Definition in_flight (op : Pending) (c : Panel) : bool :=
  if in_dec Pending_eq_dec op (pending c) then true else false.

(** [op] settles: its continuation [k] runs, if [op] was pending. *)
Definition settle (op : Pending) (k : Panel -> Panel) (c : Panel) : Panel :=
  if in_flight op c then
    k {| state := state c;
         unmounted := unmounted c;
         listening := listening c;
         pending := remove_one op (pending c) |}
  else c.

(** *** constructor *)
Definition constructor : Panel :=
  {| state :=
       {| loading := true;
          error := None;
          backupKeyStored := None;
          backupKeyCached := None;
          backupKeyWellFormed := None;
          secretStorageKeyInAccount := None;
          secretStorageReady := None;
          backupInfo := None;
          backupSigStatus := None;
          sessionsRemaining := 0 |};
     unmounted := false;
     listening := false;
     pending := [] |}.

(** *** getUpdatedDiagnostics

    The method is called without [await] by both refreshes; it stops at its
    first [await] and writes only after its last one. *)
Definition getUpdatedDiagnostics (c : Panel) : Panel :=
  spawn AwaitDiagnostics c.

Definition getUpdatedDiagnostics_resume
    (r : Settled DiagnosticsFetch) (c : Panel) : Panel :=
  match r with
  | Resolved d =>
      let backupKeyStored := isKeyBackupKeyStored d in
      let backupKeyFromCache := getSessionBackupPrivateKey d in
      let backupKeyCached :=
        match backupKeyFromCache with KeyAbsent => false | _ => true end in
      let backupKeyWellFormed :=
        match backupKeyFromCache with KeyUint8Array => true | _ => false end in
      let secretStorageKeyInAccount := hasKey d in
      let secretStorageReady := isSecretStorageReady d in
      if unmounted c then c
      else setState [ F_backupKeyStored (Some backupKeyStored);
                      F_backupKeyCached (Some backupKeyCached);
                      F_backupKeyWellFormed (Some backupKeyWellFormed);
                      F_secretStorageKeyInAccount (Some secretStorageKeyInAccount);
                      F_secretStorageReady (Some secretStorageReady) ] c
  | Rejected _ => c
  end.

(** *** checkKeyBackupStatus (the full check) *)
Definition checkKeyBackupStatus (c : Panel) : Panel :=
  spawn AwaitCheckKeyBackup (getUpdatedDiagnostics c).

Definition checkKeyBackupStatus_resume
    (r : Settled KeyBackupCheck) (c : Panel) : Panel :=
  match r with
  | Resolved k =>
      setState [ F_loading false;
                 F_error None;
                 F_backupInfo (kbc_backupInfo k);
                 F_backupSigStatus (Some (kbc_trustInfo k)) ] c
  | Rejected e =>
      if unmounted c then c
      else setState [ F_loading false;
                      F_error (Some e);
                      F_backupInfo None;
                      F_backupSigStatus None ] c
  end.

(** *** loadBackupStatus (the quick reload) *)
Definition loadBackupStatus (c : Panel) : Panel :=
  spawn AwaitGetKeyBackupVersion
    (getUpdatedDiagnostics (setState [ F_loading true ] c)).

(** The [catch] block. *)
Definition loadBackupStatus_catch (e : JsError) (c : Panel) : Panel :=
  if unmounted c then c
  else setState [ F_loading false;
                  F_error (Some e);
                  F_backupInfo None;
                  F_backupSigStatus None ] c.

(** After [await getKeyBackupVersion()]. *)
Definition loadBackupStatus_resume1
    (r : Settled (option IKeyBackupInfo)) (c : Panel) : Panel :=
  match r with
  | Resolved info => spawn (AwaitIsKeyBackupTrusted info) c
  | Rejected e => loadBackupStatus_catch e c
  end.

(** After [await isKeyBackupTrusted(backupInfo)]. *)
Definition loadBackupStatus_resume2
    (info : option IKeyBackupInfo) (r : Settled TrustInfo) (c : Panel) : Panel :=
  match r with
  | Resolved t =>
      if unmounted c then c
      else setState [ F_loading false;
                      F_error None;
                      F_backupInfo info;
                      F_backupSigStatus (Some t) ] c
  | Rejected e => loadBackupStatus_catch e c
  end.

(** *** Lifecycle and notifications *)
Definition componentDidMount (c : Panel) : Panel :=
  let c := checkKeyBackupStatus c in
  {| state := state c; unmounted := unmounted c;
     listening := true; pending := pending c |}.

(** [client] tells whether [MatrixClientPeg.get()] still answers a client. *)
Definition componentWillUnmount (client : bool) (c : Panel) : Panel :=
  {| state := state c;
     unmounted := true;
     listening := if client then false else listening c;
     pending := pending c |}.

Definition onKeyBackupSessionsRemaining (n : Z) (c : Panel) : Panel :=
  setState [ F_sessionsRemaining n ] c.

Definition onKeyBackupStatus (c : Panel) : Panel :=
  loadBackupStatus c.

(** *** The operations behind the buttons *)
Definition startNewBackup (c : Panel) : Panel :=
  spawn DialogCreateKeyBackup c.

(** [onFinished] of the creation dialog. *)
Definition startNewBackup_onFinished (c : Panel) : Panel :=
  loadBackupStatus c.

Definition deleteBackup (c : Panel) : Panel :=
  spawn DialogDeleteBackup c.

(** [onFinished(proceed)] of the question dialog; reading [version] of a
    [null] [backupInfo] throws and ends the callback. *)
Definition deleteBackup_onFinished (proceed : bool) (c : Panel) : Panel :=
  if negb proceed then c
  else
    let c := setState [ F_loading true ] c in
    match backupInfo (state c) with
    | Some info => spawn (AwaitDeleteKeyBackupVersion (version info)) c
    | None => c
    end.

(** The promise of [deleteKeyBackupVersion] has a fulfilment handler only. *)
Definition deleteBackup_then (r : Settled unit) (c : Panel) : Panel :=
  match r with
  | Resolved _ => loadBackupStatus c
  | Rejected _ => c
  end.

Definition restoreBackup (c : Panel) : Panel :=
  spawn DialogRestoreKeyBackup c.

Definition resetSecretStorage (c : Panel) : Panel :=
  spawn AwaitAccessSecretStorage (setState [ F_error None ] c).

(** After [await accessSecretStorage(...)]: the [catch] block, which may
    return from the method ([None]), then the two statements after it. *)
Definition resetSecretStorage_resume (r : Settled unit) (c : Panel) : Panel :=
  let after_try :=
    match r with
    | Resolved _ => Some c
    | Rejected e =>
        if unmounted c then None
        else Some (setState [ F_error (Some e) ] c)
    end in
  match after_try with
  | None => c
  | Some c' => if unmounted c' then c' else loadBackupStatus c'
  end.

(** ** Events and the step function *)

Inductive Event : Type :=
| Mount
| Unmount (client : bool)
| KeyBackupStatus
| KeyBackupSessionsRemaining (n : Z)
| ClickSetup
| ClickRestore
| ClickDelete
| ClickReset
| DiagnosticsSettled (r : Settled DiagnosticsFetch)
| CheckKeyBackupSettled (r : Settled KeyBackupCheck)
| GetKeyBackupVersionSettled (r : Settled (option IKeyBackupInfo))
| IsKeyBackupTrustedSettled (info : option IKeyBackupInfo) (r : Settled TrustInfo)
| CreateDialogFinished
| DeleteDialogFinished (proceed : bool)
| RestoreDialogClosed
| DeleteKeyBackupVersionSettled (v : string) (r : Settled unit)
| AccessSecretStorageSettled (r : Settled unit).

Definition step (c : Panel) (e : Event) : Panel :=
  match e with
  | Mount => componentDidMount c
  | Unmount client => componentWillUnmount client c
  | KeyBackupStatus =>
      if listening c then onKeyBackupStatus c else c
  | KeyBackupSessionsRemaining n =>
      if listening c then onKeyBackupSessionsRemaining n c else c
  | ClickSetup => startNewBackup c
  | ClickRestore => restoreBackup c
  | ClickDelete => deleteBackup c
  | ClickReset => resetSecretStorage c
  | DiagnosticsSettled r =>
      settle AwaitDiagnostics (getUpdatedDiagnostics_resume r) c
  | CheckKeyBackupSettled r =>
      settle AwaitCheckKeyBackup (checkKeyBackupStatus_resume r) c
  | GetKeyBackupVersionSettled r =>
      settle AwaitGetKeyBackupVersion (loadBackupStatus_resume1 r) c
  | IsKeyBackupTrustedSettled info r =>
      settle (AwaitIsKeyBackupTrusted info) (loadBackupStatus_resume2 info r) c
  | CreateDialogFinished =>
      settle DialogCreateKeyBackup startNewBackup_onFinished c
  | DeleteDialogFinished proceed =>
      settle DialogDeleteBackup (deleteBackup_onFinished proceed) c
  | RestoreDialogClosed =>
      settle DialogRestoreKeyBackup (fun c => c) c
  | DeleteKeyBackupVersionSettled v r =>
      settle (AwaitDeleteKeyBackupVersion v) (deleteBackup_then r) c
  | AccessSecretStorageSettled r =>
      settle AwaitAccessSecretStorage (resetSecretStorage_resume r) c
  end.

Definition run (c : Panel) (es : list Event) : Panel :=
  fold_left step es c.

(** An event that ends a refresh: the full check settles, or the quick
    reload reaches its last [await] or its [catch] block. *)
Definition completes_refresh (e : Event) : bool :=
  match e with
  | CheckKeyBackupSettled _ => true
  | GetKeyBackupVersionSettled (Rejected _) => true
  | IsKeyBackupTrustedSettled _ _ => true
  | _ => false
  end.

(** The pending call an event settles. *)
Definition settles (e : Event) : option Pending :=
  match e with
  | DiagnosticsSettled _ => Some AwaitDiagnostics
  | CheckKeyBackupSettled _ => Some AwaitCheckKeyBackup
  | GetKeyBackupVersionSettled _ => Some AwaitGetKeyBackupVersion
  | IsKeyBackupTrustedSettled info _ => Some (AwaitIsKeyBackupTrusted info)
  | CreateDialogFinished => Some DialogCreateKeyBackup
  | DeleteDialogFinished _ => Some DialogDeleteBackup
  | RestoreDialogClosed => Some DialogRestoreKeyBackup
  | DeleteKeyBackupVersionSettled v _ => Some (AwaitDeleteKeyBackupVersion v)
  | AccessSecretStorageSettled _ => Some AwaitAccessSecretStorage
  | _ => None
  end.


(** ** render *)

Inductive StatusDescription : Type :=
| UnableToLoad
| SpinnerShown
| BackingUp
| NotBackingUpExisting
| NotBackedUp.

Inductive RestoreCaption : Type :=
| RestoreFromBackup
| ConnectThisSession.

Inductive UploadStatus : Type :=
| NoUploadStatus
| BackingUpKeys (n : Z)
| AllKeysBackedUp.

(** The buttons, by their [key]: restore, delete, setup, reset. *)
Inductive Action : Type :=
| Restore (caption : RestoreCaption)
| Delete
| SetupNewBackup
| ResetSecretStorage.

Record ExtraDetails : Type := {
  uploadStatus : UploadStatus;
  sigStatuses : SigStatuses;
  trustedLocally : bool
}.

Record View : Type := {
  statusDescription : StatusDescription;
  extraDetails : option ExtraDetails;
  actionRow : list Action
}.

Section Render.

Variable cli : Client.

(** [isSecureBackupRequired()]. *)
Variable secureBackupRequired : bool.

(** The body of [render] up to the action row; [None] is the [TypeError]
    of reading [sigs] of a [null] [backupSigStatus]. *)
Definition render (s : IState) : option View :=
  let primary :=
    if truthy_obj (error s) then
      Some (UnableToLoad, None, [])
    else if loading s then
      Some (SpinnerShown, None, [])
    else if truthy_obj (backupInfo s) then
      let '(statusDescription, restoreButtonCaption) :=
        if getKeyBackupEnabled cli then (BackingUp, RestoreFromBackup)
        else (NotBackingUpExisting, ConnectThisSession) in
      let uploadStatus :=
        if negb (getKeyBackupEnabled cli) then NoUploadStatus
        else if sessionsRemaining s >? 0 then BackingUpKeys (sessionsRemaining s)
        else AllKeysBackedUp in
      match backupSigStatus s with
      | None => None
      | Some t =>
          Some (statusDescription,
                Some {| uploadStatus := uploadStatus;
                        sigStatuses := backupSigStatuses cli t;
                        trustedLocally := trusted_locally t |},
                Restore restoreButtonCaption
                  :: (if negb secureBackupRequired then [Delete] else []))
      end
    else
      Some (NotBackedUp, None, [SetupNewBackup]) in
  match primary with
  | None => None
  | Some (statusDescription, extraDetails, actions) =>
      Some {| statusDescription := statusDescription;
              extraDetails := extraDetails;
              actionRow :=
                actions ++ (if truthy_obool (secretStorageKeyInAccount s)
                            then [ResetSecretStorage] else []) |}
  end.

(** The statements of [render] that fill the local array [actions]. *)
Definition actions (s : IState) : list Action :=
  let actions :=
    if truthy_obj (error s) then []
    else if loading s then []
    else if truthy_obj (backupInfo s) then
      Restore (if getKeyBackupEnabled cli then RestoreFromBackup
               else ConnectThisSession)
        :: (if negb secureBackupRequired then [Delete] else [])
    else [SetupNewBackup] in
  actions ++ (if truthy_obool (secretStorageKeyInAccount s)
              then [ResetSecretStorage] else []).

(** [render] runs to its end on [s]. *)
Definition renderable (s : IState) : bool :=
  if truthy_obj (error s) then true
  else if loading s then true
  else if truthy_obj (backupInfo s) then truthy_obj (backupSigStatus s)
  else true.

End Render.

(** ** The markup of a signature message *)

(** The two classes of the span [validity] wraps its word in. *)
Inductive ValidityClass : Type :=
| SigValid
| SigInvalid.

(** The two classes of the span [verify] wraps its word in. *)
Inductive VerifyClass : Type :=
| DeviceVerified
| DeviceNotVerified.

(** [sig.valid ? "mx_SecureBackupPanel_sigValid"
              : "mx_SecureBackupPanel_sigInvalid"] *)
Definition validity (sig : SigInfo) : ValidityClass :=
  if valid sig then SigValid else SigInvalid.

(** [sig.device && sig.deviceTrust.isVerified()
       ? "mx_SecureBackupPanel_deviceVerified"
       : "mx_SecureBackupPanel_deviceNotVerified"] *)
Definition verify (sig : SigInfo) : VerifyClass :=
  if truthy_obj (device sig) && isVerified (deviceTrust sig)
  then DeviceVerified else DeviceNotVerified.

(** The word a message puts between [<verify>] and [</verify>]. *)
Inductive VerifyWord : Type :=
| WordUnknown
| WordVerified
| WordUnverified.

(** The word a message puts between [<validity>] and [</validity>]:
    "valid" ([true]) or "invalid" ([false]); the two unknown-signer
    messages have no such tag. *)
Definition validity_word (c : Category) : option bool :=
  match c with
  | ValidFromThisUser => Some true
  | InvalidFromThisUser => Some false
  | FromUnknownUser _ => None
  | FromUnknownSession _ => None
  | ValidFromThisSession => Some true
  | InvalidFromThisSession => Some false
  | ValidFromVerifiedSession _ => Some true
  | ValidFromUnverifiedSession _ => Some true
  | InvalidFromVerifiedSession _ => Some false
  | InvalidFromUnverifiedSession _ => Some false
  end.

(** The word a message puts between [<verify>] and [</verify>]; the four
    messages about this user and this session have no such tag. *)
Definition verify_word (c : Category) : option VerifyWord :=
  match c with
  | ValidFromThisUser => None
  | InvalidFromThisUser => None
  | FromUnknownUser _ => Some WordUnknown
  | FromUnknownSession _ => Some WordUnknown
  | ValidFromThisSession => None
  | InvalidFromThisSession => None
  | ValidFromVerifiedSession _ => Some WordVerified
  | ValidFromUnverifiedSession _ => Some WordUnverified
  | InvalidFromVerifiedSession _ => Some WordVerified
  | InvalidFromUnverifiedSession _ => Some WordUnverified
  end.

(** ** The table under "Advanced" and the button row *)

Inductive StoredText : Type :=
| InSecretStorage
| NotStored.

Inductive CachedText : Type :=
| CachedLocally
| NotFoundLocally.

(** [backupKeyWellFormedText]: empty, or a comma followed by one of two
    messages. *)
Inductive WellFormedText : Type :=
| NoWellFormedText
| WellFormed
| UnexpectedType.

Inductive KeyText : Type :=
| InAccountData
| KeyNotFound.

Inductive ReadyText : Type :=
| Ready
| NotReady.

Record StatusList : Type := {
  backupKeyStoredText : StoredText;
  backupKeyCachedText : CachedText;
  backupKeyWellFormedText : WellFormedText;
  secretStorageKeyText : KeyText;
  secretStorageText : ReadyText;
  extraDetailsTableRows : option (string * string)
}.

(** The statements of [render] that fill the table: the four diagnostic
    rows, and the version and algorithm rows set in the branch of a
    recorded backup. *)
Definition statusList (s : IState) : StatusList :=
  {| backupKeyStoredText :=
       match backupKeyStored s with
       | Some true => InSecretStorage
       | _ => NotStored
       end;
     backupKeyCachedText :=
       if truthy_obool (backupKeyCached s) then CachedLocally
       else NotFoundLocally;
     backupKeyWellFormedText :=
       if truthy_obool (backupKeyCached s) then
         if truthy_obool (backupKeyWellFormed s) then WellFormed
         else UnexpectedType
       else NoWellFormedText;
     secretStorageKeyText :=
       if truthy_obool (secretStorageKeyInAccount s) then InAccountData
       else KeyNotFound;
     secretStorageText :=
       if truthy_obool (secretStorageReady s) then Ready else NotReady;
     extraDetailsTableRows :=
       if truthy_obj (error s) then None
       else if loading s then None
       else match backupInfo s with
            | Some info => Some (version info, algorithm info)
            | None => None
            end |}.

(** [if (actions.length) actionRow = <div …>{actions}</div>]: the row of
    buttons, left [undefined] when there is no button. *)
Definition buttonRow (actions : list Action) : option (list Action) :=
  if (List.length actions =? 0)%nat then None else Some actions.

(** ** The writes of the component

    The objects the methods give to [setState], by the place that writes
    them; [w_trans] is one write after another in the same call. *)
Inductive writes (s : IState) : IState -> Prop :=
| w_none : writes s s
| w_loading : writes s (assign s (F_loading true))
| w_error (e : option JsError) : writes s (assign s (F_error e))
| w_sessionsRemaining (n : Z) : writes s (assign s (F_sessionsRemaining n))
| w_diagnostics (stored : bool) (key : CachedKey) (inAccount ready : bool) :
    writes s
      (fold_left assign
         [ F_backupKeyStored (Some stored);
           F_backupKeyCached
             (Some match key with KeyAbsent => false | _ => true end);
           F_backupKeyWellFormed
             (Some match key with KeyUint8Array => true | _ => false end);
           F_secretStorageKeyInAccount (Some inAccount);
           F_secretStorageReady (Some ready) ] s)
| w_refreshed (info : option IKeyBackupInfo) (t : TrustInfo) :
    writes s
      (fold_left assign
         [ F_loading false; F_error None; F_backupInfo info;
           F_backupSigStatus (Some t) ] s)
| w_failed (e : JsError) :
    writes s
      (fold_left assign
         [ F_loading false; F_error (Some e); F_backupInfo None;
           F_backupSigStatus None ] s)
| w_trans (s1 s2 : IState) : writes s s1 -> writes s1 s2 -> writes s s2.

(** What every state of the component satisfies (see [reachable_consistent]):
    a recorded backup has its trust information, a well-formed cached key
    is a cached key, and the five diagnostics are set together. *)
Definition consistent (s : IState) : Prop :=
  (backupInfo s <> None -> backupSigStatus s <> None)
  /\ (backupKeyWellFormed s = Some true -> backupKeyCached s = Some true)
  /\ ((backupKeyStored s = None /\ backupKeyCached s = None
       /\ backupKeyWellFormed s = None /\ secretStorageKeyInAccount s = None
       /\ secretStorageReady s = None)
      \/ (backupKeyStored s <> None /\ backupKeyCached s <> None
          /\ backupKeyWellFormed s <> None
          /\ secretStorageKeyInAccount s <> None
          /\ secretStorageReady s <> None)).

(** A notification from the client, as opposed to a press of a button or a
    settlement. *)
Definition is_notification (e : Event) : bool :=
  match e with
  | KeyBackupStatus => true
  | KeyBackupSessionsRemaining _ => true
  | _ => false
  end.

(** ** The specification's wording

    The statements of the specification that the code does not satisfy as
    worded, written from the specification to be compared with the
    definitions above. *)

(** Section 4.1: [fromThisUser = sig.crossSigningId present AND
    sig.crossSigningId == localCrossSigningId]. *)
Definition spec_fromThisUser (cli : Client) (sig : SigInfo) : bool :=
  match crossSigningId sig with
  | Some x => String.eqb x (getCrossSigningId cli)
  | None => false
  end.

(** Section 4.1: [fromThisDevice = sig.device present AND
    sig.device.identityKey == localDeviceKey]. *)
Definition spec_fromThisDevice (cli : Client) (sig : SigInfo) : bool :=
  match device sig with
  | Some d => String.eqb (getFingerprint d) (getDeviceEd25519Key cli)
  | None => false
  end.

(** Section 4.1, the ten rules in their order, in the words of the
    specification: "present" and "absent" are read as such (an empty
    cross-signing id is present), [deviceVerified] is the verification of
    the signing device, and the payloads are [deviceId] and [deviceName]. *)
Definition spec_rules (cli : Client) : list Rule :=
  [ (fun s => valid s && spec_fromThisUser cli s,
     fun _ => ValidFromThisUser);
    (fun s => negb (valid s) && spec_fromThisUser cli s,
     fun _ => InvalidFromThisUser);
    (fun s => match crossSigningId s with Some _ => true | None => false end,
     fun s => FromUnknownUser (deviceId s));
    (fun s => match device s with Some _ => false | None => true end,
     fun s => FromUnknownSession (deviceId s));
    (fun s => valid s && spec_fromThisDevice cli s,
     fun _ => ValidFromThisSession);
    (fun s => negb (valid s) && spec_fromThisDevice cli s,
     fun _ => InvalidFromThisSession);
    (fun s => valid s && isVerified (deviceTrust s),
     fun s => ValidFromVerifiedSession (deviceName s));
    (fun s => valid s && negb (isVerified (deviceTrust s)),
     fun s => ValidFromUnverifiedSession (deviceName s));
    (fun s => negb (valid s) && isVerified (deviceTrust s),
     fun s => InvalidFromVerifiedSession (deviceName s));
    (fun s => negb (valid s) && negb (isVerified (deviceTrust s)),
     fun s => InvalidFromUnverifiedSession (deviceName s)) ].

(** Section 8, property 1: the classification is the category of the
    first rule of section 4.1 whose predicate holds. *)
Definition classify_as_claimed (cli : Client) (sig : SigInfo) : Prop :=
  sigStatus cli sig = first_match (spec_rules cli) sig.

(** The signatures on which the code and section 4.1 read the
    cross-signing id alike: there is none, or it is not empty and it is
    the client's exactly when [sig.deviceId] is. *)
Definition readings_agree (cli : Client) (sig : SigInfo) : Prop :=
  crossSigningId sig = None
  \/ exists x, crossSigningId sig = Some x
               /\ x <> EmptyString
               /\ (x = getCrossSigningId cli
                   <-> deviceId sig = getCrossSigningId cli).

(** Section 4.1: [fromThisUser] compares the signature's cross-signing id
    with the client's. *)
Definition fromThisUser_as_claimed (cli : Client) (sig : SigInfo) : Prop :=
  fromThisUser cli sig = true
  <-> exists x, crossSigningId sig = Some x /\ x = getCrossSigningId cli.

(** Section 3: [trustInfo] is present iff [backupInfo] is present and no
    error occurred. *)
Definition trust_as_claimed (s : IState) : Prop :=
  backupSigStatus s <> None <-> (backupInfo s <> None /\ error s = None).

(** Section 8, property 5: with a backup present, [Delete] is offered
    exactly when backup is not mandatory. *)
Definition delete_as_claimed
    (cli : Client) (secureBackupRequired : bool) (s : IState) : Prop :=
  backupInfo s <> None ->
  if secureBackupRequired
  then ~ In Delete (actions cli secureBackupRequired s)
  else In Delete (actions cli secureBackupRequired s).

(** * Properties *)

(** ** Signature classification *)

Section ClassifierFacts.

Variable cli : Client.

(** Reading a rule list first-match-wins returns the category of a winning
    rule. *)
Lemma first_match_wins :
  forall (rs : list Rule) (s : SigInfo) (c : Category),
    first_match rs s = Some c -> exists i, wins rs s i c.
Proof.
  induction rs as [|[p k] rs IH]; intros s c H; simpl in H.
  - discriminate.
  - destruct (p s) eqn:Hp.
    + injection H as <-. exists 0%nat. split.
      * exists p, k. simpl. auto.
      * intros j p' k' Hj. lia.
    + destruct (IH s c H) as [i [[p' [k' [Hn [Hp' Hk']]]] Hlt]].
      exists (S i). split.
      * exists p', k'. simpl. auto.
      * intros j q kq Hj Hnth. destruct j as [|j]; simpl in Hnth.
        -- injection Hnth as <- <-. exact Hp.
        -- apply (Hlt j q kq); [lia | exact Hnth].
Qed.

(** At most one rule wins. *)
Lemma wins_unique :
  forall (rs : list Rule) (s : SigInfo) (i j : nat) (c d : Category),
    wins rs s i c -> wins rs s j d -> i = j /\ c = d.
Proof.
  intros rs s i j c d [[p [k [Hi [Hp Hk]]]] Hbi] [[q [l [Hj [Hq Hl]]]] Hbj].
  assert (i = j) as ->.
  { destruct (Nat.lt_trichotomy i j) as [Hlt | [Heq | Hgt]]; [ | exact Heq | ].
    - rewrite (Hbj i p k Hlt Hi) in Hp. discriminate.
    - rewrite (Hbi j q l Hgt Hj) in Hq. discriminate. }
  split; [reflexivity|]. congruence.
Qed.

(** The conditional chain of [render] is the rule list read
    first-match-wins. *)
Lemma sigStatus_first_match :
  forall sig, sigStatus cli sig = first_match (chain_rules cli) sig.
Proof.
  intro sig. unfold sigStatus, chain_rules, first_match.
  repeat match goal with
         | |- (if ?b then _ else _) = (if ?b then _ else _) =>
             destruct b; [reflexivity|]
         end.
  reflexivity.
Qed.

(** One of the branches is always taken: [sigStatus] is never left
    [undefined]. *)
Lemma sigStatus_defined :
  forall sig, exists c, sigStatus cli sig = Some c.
Proof.
  intro sig. unfold sigStatus.
  destruct (valid sig), (fromThisUser cli sig),
    (truthy_ostring (crossSigningId sig)), (truthy_obj (device sig)),
    (fromThisDevice cli sig), (isVerified (deviceTrust sig));
    simpl; eexists; reflexivity.
Qed.

(** The number of a category is the position of its rule. *)
Lemma chain_rules_numbered :
  forall sig i c, wins (chain_rules cli) sig i c -> rule_number c = S i.
Proof.
  intros sig i c [[p [k [Hn [_ Hk]]]] _].
  do 10 (destruct i as [|i];
         [simpl in Hn; injection Hn as <- <-; subst c; reflexivity|]).
  simpl in Hn. destruct i; discriminate.
Qed.

(** X1. The four messages that name a session are only reached with a device,
    so the name they render is not [null]. *)
Lemma named_session_has_name :
  forall sig c,
    sigStatus cli sig = Some c -> (7 <= rule_number c)%nat ->
    exists d, device sig = Some d
              /\ deviceName sig = Some (or_string (getDisplayName d) (dev_deviceId d)).
Proof.
  intros sig c H Hn. unfold sigStatus, deviceName in *.
  destruct (device sig) as [d|] eqn:Hd.
  - exists d. auto.
  - exfalso. simpl in H.
    repeat match type of H with
           | (if ?b then _ else _) = _ => destruct b
           end;
      try discriminate; injection H as <-; simpl in Hn; lia.
Qed.

(** The code and section 4.1 give a signature the same message exactly
    when they read its cross-signing id alike. *)
Lemma sigStatus_spec_rules :
  forall sig,
    sigStatus cli sig = first_match (spec_rules cli) sig
    <-> readings_agree cli sig.
Proof.
  intro sig.
  unfold readings_agree, sigStatus, spec_rules, first_match, fromThisUser,
    spec_fromThisUser, fromThisDevice, spec_fromThisDevice, strict_eq.
  destruct (crossSigningId sig) as [x|]; simpl truthy_ostring.
  - destruct (String.eqb_spec x (getCrossSigningId cli)) as [Hx|Hx];
      destruct (String.eqb_spec (deviceId sig) (getCrossSigningId cli))
        as [Hd|Hd];
      destruct x as [|a x];
      destruct (valid sig); destruct (device sig) as [d|];
      try destruct (String.eqb (getFingerprint d) (getDeviceEd25519Key cli));
      destruct (isVerified (deviceTrust sig));
      simpl;
      (split;
       [ intro H;
         first [ discriminate H
               | right; eexists; split; [reflexivity|];
                 split; [discriminate|]; split; intro; congruence ]
       | intros [H|[y [Hy [Hne Hiff]]]];
         [ discriminate H
         | injection Hy as <-; try reflexivity; try congruence;
           exfalso; tauto ] ]).
  - split; [intros _; left; reflexivity|intros _].
    destruct (valid sig); destruct (device sig) as [d|]; reflexivity.
Qed.

End ClassifierFacts.

(** C1, counterexample. A valid signature carries the client's own
    cross-signing id under another [deviceId]: rule 1 of section 4.1 holds
    of it, and the code, which reads [sig.deviceId], reports an unknown
    user. *)
Lemma chain_differs_from_section_4_1 :
  ~ classify_as_claimed
      {| getDeviceEd25519Key := "ed25519-local";
         getCrossSigningId := "msk-local";
         getKeyBackupEnabled := true |}
      {| deviceId := "DEVICE";
         device := None;
         crossSigningId := Some "msk-local";
         valid := true;
         deviceTrust := {| isVerified := false |} |}.
Proof. unfold classify_as_claimed. vm_compute. discriminate. Qed.

(** C1, amended. For every signature record the classification takes the
    ten conditions of the chain in the order of section 4.1, first match
    winning: the result is the category of the first condition that holds
    (no earlier one holds), it is always defined, so exactly one of the ten
    categories, and it has that rule's number.  The chain has the
    categories of section 4.1 in its order and its rules 4 to 10; rules 1
    to 3 read the cross-signing id as the code does ([fromThisUser] tests
    [sig.deviceId], and an empty id counts as absent), and the result is
    the one of section 4.1 as worded exactly on the signatures where the
    two readings agree.  The empty signature list is shown as [Unsigned],
    a non-empty one as the list of its classifications. *)
Theorem classify_first_match_wins :
  forall (cli : Client) (sig : SigInfo),
    List.length (chain_rules cli) = 10%nat
    /\ sigStatus cli sig = first_match (chain_rules cli) sig
    /\ (exists c i,
          sigStatus cli sig = Some c
          /\ wins (chain_rules cli) sig i c
          /\ rule_number c = S i)
    /\ (map (fun r : Rule => snd r sig) (chain_rules cli)
        = map (fun r : Rule => snd r sig) (spec_rules cli)
        /\ map (fun r : Rule => fst r sig) (skipn 3 (chain_rules cli))
           = map (fun r : Rule => fst r sig) (skipn 3 (spec_rules cli)))
    /\ (sigStatus cli sig = first_match (spec_rules cli) sig
        <-> readings_agree cli sig)
    /\ (forall b, backupSigStatuses cli {| sigs := []; trusted_locally := b |}
                  = Unsigned)
    /\ (forall b rest,
          backupSigStatuses cli {| sigs := sig :: rest; trusted_locally := b |}
          = Statuses (map (sigStatus cli) (sig :: rest))).
Proof.
  intros cli sig. split; [reflexivity|]. split; [apply sigStatus_first_match|].
  split.
  { destruct (sigStatus_defined cli sig) as [c Hc].
    assert (Hf : first_match (chain_rules cli) sig = Some c)
      by (rewrite <- sigStatus_first_match; exact Hc).
    destruct (first_match_wins _ _ Hf) as [i Hw].
    exists c, i. split; [exact Hc|]. split; [exact Hw|].
    exact (chain_rules_numbered Hw). }
  split.
  { split; [reflexivity|].
    unfold chain_rules, spec_rules, skipn, map, fst, fromThisDevice,
      spec_fromThisDevice, strict_eq.
    destruct (device sig); reflexivity. }
  split; [apply sigStatus_spec_rules|].
  split; intros; reflexivity.
Qed.

(** The order of the rules decides the result on a signature that has both
    a cross-signing id and a known device, neither of them this client's:
    rule 3 wins over the session rules. *)
Example ambiguous_signature_is_unknown_user :
  sigStatus
    {| getDeviceEd25519Key := "ed25519-local";
       getCrossSigningId := "msk-local";
       getKeyBackupEnabled := true |}
    {| deviceId := "msk-other";
       device := Some {| dev_deviceId := "DEVICE";
                         getDisplayName := Some "laptop";
                         getFingerprint := "ed25519-other" |};
       crossSigningId := Some "msk-other";
       valid := true;
       deviceTrust := {| isVerified := true |} |}
  = Some (FromUnknownUser "msk-other").
Proof. reflexivity. Qed.

(** C2, counterexample. A signature whose cross-signing id is the client's
    own, under another [deviceId], is not from this user for the code: the
    comparison reads [sig.deviceId]. *)
Lemma fromThisUser_reads_deviceId :
  ~ fromThisUser_as_claimed
      {| getDeviceEd25519Key := "ed25519-local";
         getCrossSigningId := "msk-local";
         getKeyBackupEnabled := true |}
      {| deviceId := "DEVICE";
         device := None;
         crossSigningId := Some "msk-local";
         valid := true;
         deviceTrust := {| isVerified := false |} |}.
Proof.
  unfold fromThisUser_as_claimed. intros [_ H].
  assert (Hf : fromThisUser
                 {| getDeviceEd25519Key := "ed25519-local";
                    getCrossSigningId := "msk-local";
                    getKeyBackupEnabled := true |}
                 {| deviceId := "DEVICE";
                    device := None;
                    crossSigningId := Some "msk-local";
                    valid := true;
                    deviceTrust := {| isVerified := false |} |} = true).
  { apply H. exists "msk-local". split; reflexivity. }
  vm_compute in Hf. discriminate.
Qed.

(** C2, amended. [fromThisUser] holds exactly when the signature carries a
    (non-empty) cross-signing id and its [deviceId] is the client's
    cross-signing identity; [fromThisDevice] holds exactly when the
    signature has a device whose fingerprint is the client's device key. *)
Theorem fromThisUser_fromThisDevice_spec :
  forall (cli : Client) (sig : SigInfo),
    (fromThisUser cli sig = true
     <-> (exists x, crossSigningId sig = Some x /\ x <> EmptyString)
         /\ deviceId sig = getCrossSigningId cli)
    /\ (fromThisDevice cli sig = true
        <-> exists d, device sig = Some d
                      /\ getFingerprint d = getDeviceEd25519Key cli).
Proof.
  intros cli sig. unfold fromThisUser, fromThisDevice, strict_eq. split.
  - rewrite andb_true_iff, String.eqb_eq.
    split; intros [H1 H2]; split; try exact H2.
    + destruct (crossSigningId sig) as [x|]; simpl in H1; [|discriminate].
      exists x. split; [reflexivity|]. intros ->. discriminate.
    + destruct H1 as [x [-> Hx]]. destruct x; [congruence|reflexivity].
  - destruct (device sig) as [d|].
    + rewrite String.eqb_eq. split.
      * intro H. exists d. auto.
      * intros [d' [Hd Hf]]. injection Hd as <-. exact Hf.
    + split; [discriminate|]. intros [d [Hd _]]. discriminate.
Qed.

(** ** The action row *)

Section ActionFacts.

Variable cli : Client.
Variable secureBackupRequired : bool.

(** When [render] runs to its end, its action row is [actions]. *)
Lemma render_actionRow :
  forall s v,
    render cli secureBackupRequired s = Some v ->
    actionRow v = actions cli secureBackupRequired s.
Proof.
  intros s v. unfold render, actions.
  destruct (truthy_obj (error s)); [intro H; injection H as <-; reflexivity|].
  destruct (loading s); [intro H; injection H as <-; reflexivity|].
  destruct (truthy_obj (backupInfo s)).
  - destruct (getKeyBackupEnabled cli); destruct (backupSigStatus s);
      intro H; try discriminate; injection H as <-; reflexivity.
  - intro H; injection H as <-; reflexivity.
Qed.

(** [render] runs to its end exactly on the states [renderable] accepts. *)
Lemma render_defined :
  forall s,
    renderable s = true <-> exists v, render cli secureBackupRequired s = Some v.
Proof.
  intro s. unfold renderable, render.
  destruct (truthy_obj (error s)); [split; eauto|].
  destruct (loading s); [split; eauto|].
  destruct (truthy_obj (backupInfo s)); [|split; eauto].
  destruct (getKeyBackupEnabled cli); destruct (backupSigStatus s); simpl;
    (split; [intro H; try discriminate H; eauto | intros [v H]; try discriminate H; reflexivity]).
Qed.

End ActionFacts.

(** C5, counterexample. After the first check found a backup, a backup
    notification starts a quick reload: the state is loading with the
    backup still recorded, and the row has no [Delete] although backup is
    not mandatory. *)
Lemma delete_hidden_while_loading :
  ~ delete_as_claimed
      {| getDeviceEd25519Key := "ed25519-local";
         getCrossSigningId := "msk-local";
         getKeyBackupEnabled := true |}
      false
      (state
         (run constructor
            [ Mount;
              CheckKeyBackupSettled
                (Resolved
                   {| kbc_backupInfo :=
                        Some {| version := "1";
                                algorithm := "m.megolm_backup.v1" |};
                      kbc_trustInfo :=
                        {| sigs := []; trusted_locally := false |} |});
              KeyBackupStatus ])).
Proof.
  unfold delete_as_claimed. intro H.
  assert (Hin := H ltac:(vm_compute; discriminate)).
  vm_compute in Hin. tauto.
Qed.

(** C5, amended. [Delete] is in the action row exactly when the state has
    no error, is not loading, records a backup, and backup is not
    mandatory. *)
Theorem delete_action_spec :
  forall (cli : Client) (secureBackupRequired : bool) (s : IState),
    In Delete (actions cli secureBackupRequired s)
    <-> error s = None /\ loading s = false /\ backupInfo s <> None
        /\ secureBackupRequired = false.
Proof.
  intros cli req s. unfold actions.
  destruct (error s), (loading s), (backupInfo s), req,
    (truthy_obool (secretStorageKeyInAccount s)); simpl;
    split; intro H;
    repeat match goal with
           | H : _ \/ _ |- _ => destruct H
           | H : _ /\ _ |- _ => destruct H
           end;
    try discriminate; try contradiction; try congruence;
    try (repeat split; auto; discriminate);
    auto.
Qed.

(** C6. [ResetSecretStorage] is in the action row exactly when
    [secretStorageKeyInAccount] is [true], whatever the error, the loading
    flag, the backup and the policy are. *)
Theorem reset_action_spec :
  forall (cli : Client) (secureBackupRequired : bool) (s : IState),
    In ResetSecretStorage (actions cli secureBackupRequired s)
    <-> secretStorageKeyInAccount s = Some true.
Proof.
  intros cli req s. unfold actions. rewrite in_app_iff.
  assert (Hprim :
    ~ In ResetSecretStorage
        (if truthy_obj (error s) then []
         else if loading s then []
         else if truthy_obj (backupInfo s)
              then Restore (if getKeyBackupEnabled cli then RestoreFromBackup
                            else ConnectThisSession)
                     :: (if negb req then [Delete] else [])
              else [SetupNewBackup])).
  { destruct (truthy_obj (error s)), (loading s), (truthy_obj (backupInfo s)),
      req; simpl; intuition discriminate. }
  destruct (secretStorageKeyInAccount s) as [[|]|]; simpl;
    intuition (try discriminate).
Qed.

(** ** The refresh cycle *)

Lemma in_flight_In :
  forall op c, in_flight op c = true <-> In op (pending c).
Proof.
  intros op c. unfold in_flight.
  destruct (in_dec Pending_eq_dec op (pending c)); split; auto; discriminate.
Qed.

(** A pending call that settles runs its continuation on the component
    without it. *)
Lemma settle_in_flight :
  forall op k c,
    in_flight op c = true ->
    settle op k c
    = k {| state := state c; unmounted := unmounted c;
           listening := listening c;
           pending := remove_one op (pending c) |}.
Proof. intros op k c H. unfold settle. rewrite H. reflexivity. Qed.

(** A settlement nobody waits for is not an event of the component. *)
Lemma settle_not_in_flight :
  forall op k c, in_flight op c = false -> settle op k c = c.
Proof. intros op k c H. unfold settle. rewrite H. reflexivity. Qed.

Lemma in_flight_spawn :
  forall op c, in_flight op (spawn op c) = true.
Proof.
  intros op c. apply in_flight_In. unfold spawn. simpl.
  apply in_or_app. right. left. reflexivity.
Qed.

Lemma in_flight_spawn_other :
  forall op op' c, in_flight op c = true -> in_flight op (spawn op' c) = true.
Proof.
  intros op op' c H. apply in_flight_In. apply in_flight_In in H.
  unfold spawn. simpl. apply in_or_app. left. exact H.
Qed.

(** The quick reload is started: [loading] is set and the two calls are
    issued, whether the component is mounted or not. *)
Lemma loadBackupStatus_starts :
  forall c,
    state (loadBackupStatus c) = assign (state c) (F_loading true)
    /\ unmounted (loadBackupStatus c) = unmounted c
    /\ listening (loadBackupStatus c) = listening c
    /\ pending (loadBackupStatus c)
       = (pending c ++ [AwaitDiagnostics; AwaitGetKeyBackupVersion])%list.
Proof.
  intro c. unfold loadBackupStatus, getUpdatedDiagnostics, spawn, setState.
  simpl. rewrite <- app_assoc. auto.
Qed.

(** C3, counterexample. The first check found a backup; a backup
    notification then starts a quick reload, for which the service reports
    no backup and evaluates the trust of that answer.  The reload stores
    the evaluation next to the absent backup. *)
Lemma quick_reload_stores_trust_without_backup :
  ~ trust_as_claimed
      (state
         (run constructor
            [ Mount;
              CheckKeyBackupSettled
                (Resolved
                   {| kbc_backupInfo :=
                        Some {| version := "1";
                                algorithm := "m.megolm_backup.v1" |};
                      kbc_trustInfo :=
                        {| sigs := []; trusted_locally := false |} |});
              KeyBackupStatus;
              GetKeyBackupVersionSettled (Resolved None);
              IsKeyBackupTrustedSettled None
                (Resolved {| sigs := []; trusted_locally := false |}) ])).
Proof.
  unfold trust_as_claimed. vm_compute. intros [H _].
  destruct (H ltac:(discriminate)) as [Hb _]. apply Hb. reflexivity.
Qed.

(** C3, amended. In the state written when a refresh completes on a
    mounted component (the full check settles, or the quick reload passes
    its last [await] or reaches its [catch] block), [loading] is off, the
    trust information is present exactly when the error is absent, and a
    recorded backup comes with its trust information; the trust
    information may be present without a backup. *)
Theorem refresh_trust_invariant :
  forall (c : Panel) (e : Event) (op : Pending),
    unmounted c = false ->
    completes_refresh e = true ->
    settles e = Some op ->
    in_flight op c = true ->
    let s := state (step c e) in
    loading s = false
    /\ (backupSigStatus s <> None <-> error s = None)
    /\ (backupInfo s <> None -> backupSigStatus s <> None).
Proof.
  intros c e op Hm He Hs Hf.
  destruct e; simpl in He; try discriminate He;
    simpl in Hs; injection Hs as <-; unfold step;
    rewrite (@settle_in_flight _ _ _ Hf).
  - destruct r as [k|err]; simpl; [|rewrite Hm; simpl];
      repeat split; intros; try discriminate; try congruence.
  - destruct r as [info|err]; [discriminate He|].
    simpl. unfold loadBackupStatus_catch. simpl. rewrite Hm. simpl.
    repeat split; intros; try discriminate; try congruence.
  - destruct r as [t|err]; simpl; unfold loadBackupStatus_catch; simpl;
      rewrite Hm; simpl;
      repeat split; intros; try discriminate; try congruence.
Qed.

Lemma refresh_trust_invariant_witness :
  let c := run constructor [Mount] in
  let e := CheckKeyBackupSettled (Rejected {| message := "offline" |}) in
  unmounted c = false
  /\ loading (state (step c e)) = false
  /\ (backupSigStatus (state (step c e)) <> None
      <-> error (state (step c e)) = None)
  /\ (backupInfo (state (step c e)) <> None
      -> backupSigStatus (state (step c e)) <> None).
Proof.
  split; [reflexivity|].
  apply (@refresh_trust_invariant
           (run constructor [Mount])
           (CheckKeyBackupSettled (Rejected {| message := "offline" |}))
           AwaitCheckKeyBackup); reflexivity.
Defined.

(** ** Teardown *)



(** C4, the failing run. The component is mounted and unmounted while the
    full check is in flight; the check then resolves, and the state is no
    longer the one teardown left. *)
Lemma full_check_writes_after_unmount :
  state
    (run constructor
       [ Mount; Unmount true;
         CheckKeyBackupSettled
           (Resolved
              {| kbc_backupInfo :=
                   Some {| version := "1";
                           algorithm := "m.megolm_backup.v1" |};
                 kbc_trustInfo :=
                   {| sigs := []; trusted_locally := false |} |}) ])
  <> state (run constructor [Mount; Unmount true]).
Proof. vm_compute. discriminate. Qed.

(** ** Failing operations *)

(** C7. On a mounted component, a failing reset is recorded in [error] and
    the quick reload is started; a failing deletion is not handled: the
    state is left as the confirmation wrote it, nothing is recorded in
    [error] and no call is issued. *)
Theorem operation_failure_handling :
  forall (c : Panel) (e : JsError) (v : string),
    unmounted c = false ->
    (in_flight AwaitAccessSecretStorage c = true ->
     let c' := step c (AccessSecretStorageSettled (Rejected e)) in
     error (state c') = Some e
     /\ loading (state c') = true
     /\ in_flight AwaitGetKeyBackupVersion c' = true)
    /\ (in_flight (AwaitDeleteKeyBackupVersion v) c = true ->
        let c' := step c (DeleteKeyBackupVersionSettled v (Rejected e)) in
        state c' = state c
        /\ pending c' = remove_one (AwaitDeleteKeyBackupVersion v) (pending c)).
Proof.
  intros c e v Hm. split; intro Hf; unfold step;
    rewrite (@settle_in_flight _ _ _ Hf); simpl.
  - unfold resetSecretStorage_resume. simpl. rewrite Hm. simpl.
    repeat split. apply in_flight_spawn.
  - auto.
Qed.

Lemma operation_failure_handling_witness :
  let c :=
    run constructor
      [ Mount;
        CheckKeyBackupSettled
          (Resolved
             {| kbc_backupInfo :=
                  Some {| version := "1"; algorithm := "m.megolm_backup.v1" |};
                kbc_trustInfo := {| sigs := []; trusted_locally := false |} |});
        ClickDelete; DeleteDialogFinished true ] in
  let c' :=
    step c (DeleteKeyBackupVersionSettled "1"
              (Rejected {| message := "M_FORBIDDEN" |})) in
  unmounted c = false
  /\ state c' = state c
  /\ pending c' = remove_one (AwaitDeleteKeyBackupVersion "1") (pending c).
Proof.
  split; [reflexivity|].
  apply (@operation_failure_handling
           (run constructor
              [ Mount;
                CheckKeyBackupSettled
                  (Resolved
                     {| kbc_backupInfo :=
                          Some {| version := "1";
                                  algorithm := "m.megolm_backup.v1" |};
                        kbc_trustInfo :=
                          {| sigs := []; trusted_locally := false |} |});
                ClickDelete; DeleteDialogFinished true ])
           {| message := "M_FORBIDDEN" |} "1");
    reflexivity.
Defined.

(** C7, the failing run. A backup is shown, the user confirms its
    deletion and the service refuses: the panel keeps loading, with no
    error and with no refresh under way. *)
Lemma delete_failure_leaves_loading :
  let c :=
    run constructor
      [ Mount;
        DiagnosticsSettled
          (Resolved {| isKeyBackupKeyStored := true;
                       getSessionBackupPrivateKey := KeyUint8Array;
                       hasKey := true;
                       isSecretStorageReady := true |});
        CheckKeyBackupSettled
          (Resolved
             {| kbc_backupInfo :=
                  Some {| version := "1"; algorithm := "m.megolm_backup.v1" |};
                kbc_trustInfo := {| sigs := []; trusted_locally := false |} |});
        ClickDelete; DeleteDialogFinished true;
        DeleteKeyBackupVersionSettled "1"
          (Rejected {| message := "M_FORBIDDEN" |}) ] in
  unmounted c = false
  /\ loading (state c) = true
  /\ error (state c) = None
  /\ pending c = [].
Proof. vm_compute. auto. Qed.

(** ** Notifications and the initial state *)

(** C8. The handler of the sessions-remaining notification writes [n] to
    [sessionsRemaining] and nothing else: the nine other fields, the
    teardown flag, the subscriptions and the calls in flight are as
    before, so no reload is started; the notification reaches the handler
    while the component is subscribed. *)
Theorem sessionsRemaining_only :
  forall (n : Z) (c : Panel),
    let c' := onKeyBackupSessionsRemaining n c in
    sessionsRemaining (state c') = n
    /\ loading (state c') = loading (state c)
    /\ error (state c') = error (state c)
    /\ backupKeyStored (state c') = backupKeyStored (state c)
    /\ backupKeyCached (state c') = backupKeyCached (state c)
    /\ backupKeyWellFormed (state c') = backupKeyWellFormed (state c)
    /\ secretStorageKeyInAccount (state c') = secretStorageKeyInAccount (state c)
    /\ secretStorageReady (state c') = secretStorageReady (state c)
    /\ backupInfo (state c') = backupInfo (state c)
    /\ backupSigStatus (state c') = backupSigStatus (state c)
    /\ unmounted c' = unmounted c
    /\ listening c' = listening c
    /\ pending c' = pending c
    /\ step c (KeyBackupSessionsRemaining n) = (if listening c then c' else c).
Proof. intros n c. simpl. repeat split. Qed.

(** C9. The constructor gives a loading state with no error, zero sessions
    remaining, and [null] for the backup, its trust information and each
    of the five diagnostics; mounting starts the first check without
    writing to the state. *)
Theorem constructor_state :
  loading (state constructor) = true
  /\ error (state constructor) = None
  /\ sessionsRemaining (state constructor) = 0
  /\ backupInfo (state constructor) = None
  /\ backupSigStatus (state constructor) = None
  /\ backupKeyStored (state constructor) = None
  /\ backupKeyCached (state constructor) = None
  /\ backupKeyWellFormed (state constructor) = None
  /\ secretStorageKeyInAccount (state constructor) = None
  /\ secretStorageReady (state constructor) = None
  /\ state (step constructor Mount) = state constructor.
Proof. repeat split. Qed.

(** A failing reset on a mounted component: the error is written and the
    quick reload is started. *)
Lemma resetSecretStorage_rejected :
  forall c e,
    unmounted c = false ->
    in_flight AwaitAccessSecretStorage c = true ->
    step c (AccessSecretStorageSettled (Rejected e))
    = loadBackupStatus
        (setState [F_error (Some e)]
           {| state := state c; unmounted := unmounted c;
              listening := listening c;
              pending := remove_one AwaitAccessSecretStorage (pending c) |}).
Proof.
  intros c e Hm Hf. unfold step. rewrite (@settle_in_flight _ _ _ Hf).
  unfold resetSecretStorage_resume. simpl. rewrite Hm. simpl. reflexivity.
Qed.

(** A quick reload whose two calls resolve on a mounted component writes
    its four fields. *)
Lemma quick_reload_resolved :
  forall c info t,
    unmounted c = false ->
    in_flight AwaitGetKeyBackupVersion c = true ->
    state (run c [ GetKeyBackupVersionSettled (Resolved info);
                   IsKeyBackupTrustedSettled info (Resolved t) ])
    = fold_left assign
        [ F_loading false; F_error None; F_backupInfo info;
          F_backupSigStatus (Some t) ]
        (state c).
Proof.
  intros c info t Hm Hf. unfold run, fold_left.
  unfold step at 2. rewrite (@settle_in_flight _ _ _ Hf).
  unfold loadBackupStatus_resume1.
  unfold step. rewrite (@settle_in_flight _ _ _ (in_flight_spawn _ _)).
  unfold loadBackupStatus_resume2. simpl. rewrite Hm. reflexivity.
Qed.

(** C10. On a mounted component the reset button is pressed and the reset
    fails: the failure is recorded in [error] and the quick reload is
    started.  When both calls of that reload resolve, [error] is [null]
    again: the failure of the reset is not kept. *)
Theorem reset_error_overwritten :
  forall (c : Panel) (e : JsError)
         (info : option IKeyBackupInfo) (t : TrustInfo),
    unmounted c = false ->
    let c1 := run c [ClickReset; AccessSecretStorageSettled (Rejected e)] in
    let c2 := run c1 [ GetKeyBackupVersionSettled (Resolved info);
                       IsKeyBackupTrustedSettled info (Resolved t) ] in
    error (state c1) = Some e
    /\ in_flight AwaitGetKeyBackupVersion c1 = true
    /\ error (state c2) = None
    /\ loading (state c2) = false
    /\ backupInfo (state c2) = info
    /\ backupSigStatus (state c2) = Some t.
Proof.
  intros c e info t Hm c1 c2.
  assert (E1 : c1 = loadBackupStatus
                      (setState [F_error (Some e)]
                         {| state := state (resetSecretStorage c);
                            unmounted := unmounted (resetSecretStorage c);
                            listening := listening (resetSecretStorage c);
                            pending := remove_one AwaitAccessSecretStorage
                                         (pending (resetSecretStorage c)) |})).
  { unfold c1, run, fold_left.
    change (step c ClickReset) with (resetSecretStorage c).
    apply resetSecretStorage_rejected; [exact Hm | apply in_flight_spawn]. }
  assert (Hm1 : unmounted c1 = false) by (rewrite E1; exact Hm).
  assert (Hf1 : in_flight AwaitGetKeyBackupVersion c1 = true)
    by (rewrite E1; apply in_flight_spawn).
  assert (E2 : state c2
               = fold_left assign
                   [ F_loading false; F_error None; F_backupInfo info;
                     F_backupSigStatus (Some t) ]
                   (state c1))
    by (apply quick_reload_resolved; assumption).
  split; [rewrite E1; reflexivity|]. split; [exact Hf1|].
  rewrite E2. simpl. auto.
Qed.

Lemma reset_error_overwritten_witness :
  let c := run constructor [Mount] in
  let e := {| message := "cancelled" |} in
  let t := {| sigs := []; trusted_locally := false |} in
  let c1 := run c [ClickReset; AccessSecretStorageSettled (Rejected e)] in
  let c2 := run c1 [ GetKeyBackupVersionSettled (Resolved None);
                     IsKeyBackupTrustedSettled None (Resolved t) ] in
  unmounted c = false
  /\ error (state c1) = Some e
  /\ error (state c2) = None.
Proof.
  split; [reflexivity|].
  destruct (@reset_error_overwritten
              (run constructor [Mount])
              {| message := "cancelled" |}
              None
              {| sigs := []; trusted_locally := false |}
              eq_refl) as [H1 [_ [H2 _]]].
  split; [exact H1 | exact H2].
Defined.

(** * Further properties of the component *)

(** ** The classification as a partition *)

(** X2. Each of the ten messages is reached under a condition of its own, and
    the ten conditions exclude one another: the priority chain of [render]
    is here read as independent cases.  A signature with a cross-signing
    id is from this user or from an unknown user, whatever its device is;
    the session messages are for signatures without a cross-signing id.
    The two unknown-signer messages carry [sig.deviceId], the four
    messages about another session carry [deviceName]. *)
Theorem sigStatus_partition :
  forall (cli : Client) (sig : SigInfo),
    let cs := truthy_ostring (crossSigningId sig) in
    let user := fromThisUser cli sig in
    let dev := truthy_obj (device sig) in
    let this := fromThisDevice cli sig in
    let ok := valid sig in
    let ver := isVerified (deviceTrust sig) in
    (sigStatus cli sig = Some ValidFromThisUser
     <-> user = true /\ ok = true)
    /\ (sigStatus cli sig = Some InvalidFromThisUser
        <-> user = true /\ ok = false)
    /\ (forall id, sigStatus cli sig = Some (FromUnknownUser id)
                   <-> id = deviceId sig /\ cs = true /\ user = false)
    /\ (forall id, sigStatus cli sig = Some (FromUnknownSession id)
                   <-> id = deviceId sig /\ cs = false /\ dev = false)
    /\ (sigStatus cli sig = Some ValidFromThisSession
        <-> cs = false /\ this = true /\ ok = true)
    /\ (sigStatus cli sig = Some InvalidFromThisSession
        <-> cs = false /\ this = true /\ ok = false)
    /\ (forall n, sigStatus cli sig = Some (ValidFromVerifiedSession n)
                  <-> n = deviceName sig /\ cs = false /\ dev = true
                      /\ this = false /\ ok = true /\ ver = true)
    /\ (forall n, sigStatus cli sig = Some (ValidFromUnverifiedSession n)
                  <-> n = deviceName sig /\ cs = false /\ dev = true
                      /\ this = false /\ ok = true /\ ver = false)
    /\ (forall n, sigStatus cli sig = Some (InvalidFromVerifiedSession n)
                  <-> n = deviceName sig /\ cs = false /\ dev = true
                      /\ this = false /\ ok = false /\ ver = true)
    /\ (forall n, sigStatus cli sig = Some (InvalidFromUnverifiedSession n)
                  <-> n = deviceName sig /\ cs = false /\ dev = true
                      /\ this = false /\ ok = false /\ ver = false).
Proof.
  intros cli sig. cbv zeta.
  unfold sigStatus, fromThisUser, fromThisDevice.
  destruct (device sig) as [d|];
    destruct (truthy_ostring (crossSigningId sig));
    destruct (strict_eq (deviceId sig) (getCrossSigningId cli));
    destruct (valid sig);
    destruct (isVerified (deviceTrust sig));
    try destruct (strict_eq (getFingerprint d) (getDeviceEd25519Key cli));
    simpl;
    repeat match goal with
           | |- _ /\ _ => split
           | |- forall _, _ => intro
           | |- _ <-> _ => split; intro
           end;
    repeat match goal with
           | H : _ /\ _ |- _ => destruct H
           end;
    try discriminate; try congruence; auto.
Qed.

(** ** Wording and styling of a message *)

(** X3. The word of a message agrees with the class it is styled with: a
    message saying "valid" is shown with the class of valid signatures and
    one saying "invalid" with the class of invalid ones; a session called
    "verified" has the class of verified devices and one called
    "unverified" the class of devices that are not; the "unknown" of an
    unknown session is never styled as verified.  The "unknown" of an
    unknown user has the class of verified devices when the signature
    comes with a verified device. *)
Theorem message_markup_consistent :
  forall (cli : Client) (sig : SigInfo) (c : Category),
    sigStatus cli sig = Some c ->
    (validity_word c = Some true -> validity sig = SigValid)
    /\ (validity_word c = Some false -> validity sig = SigInvalid)
    /\ (verify_word c = Some WordVerified -> verify sig = DeviceVerified)
    /\ (verify_word c = Some WordUnverified -> verify sig = DeviceNotVerified)
    /\ (forall id, c = FromUnknownSession id -> verify sig = DeviceNotVerified)
    /\ (forall id, c = FromUnknownUser id ->
          (verify sig = DeviceVerified
           <-> device sig <> None /\ isVerified (deviceTrust sig) = true)).
Proof.
  intros cli sig c H. unfold sigStatus in H. unfold validity, verify.
  destruct (device sig) as [d|];
    destruct (valid sig);
    destruct (fromThisUser cli sig);
    destruct (truthy_ostring (crossSigningId sig));
    destruct (fromThisDevice cli sig);
    destruct (isVerified (deviceTrust sig));
    simpl in H; injection H as <-; simpl;
    repeat match goal with
           | |- _ /\ _ => split
           | |- forall _, _ => intro
           | |- _ <-> _ => split; intro
           end;
    repeat match goal with
           | H : _ /\ _ |- _ => destruct H
           end;
    try discriminate; try congruence; auto.
Qed.

Lemma message_markup_consistent_witness :
  let cli := {| getDeviceEd25519Key := "ed25519-local";
                getCrossSigningId := "msk-local";
                getKeyBackupEnabled := true |} in
  let sig := {| deviceId := "OTHER";
                device := Some {| dev_deviceId := "OTHER";
                                  getDisplayName := Some "laptop";
                                  getFingerprint := "ed25519-other" |};
                crossSigningId := None;
                valid := false;
                deviceTrust := {| isVerified := true |} |} in
  sigStatus cli sig = Some (InvalidFromVerifiedSession (Some "laptop"))
  /\ validity sig = SigInvalid
  /\ verify sig = DeviceVerified.
Proof.
  split; [reflexivity|].
  destruct (@message_markup_consistent
              {| getDeviceEd25519Key := "ed25519-local";
                 getCrossSigningId := "msk-local";
                 getKeyBackupEnabled := true |}
              {| deviceId := "OTHER";
                 device := Some {| dev_deviceId := "OTHER";
                                   getDisplayName := Some "laptop";
                                   getFingerprint := "ed25519-other" |};
                 crossSigningId := None;
                 valid := false;
                 deviceTrust := {| isVerified := true |} |}
              (InvalidFromVerifiedSession (Some "laptop"))
              eq_refl) as [_ [H1 [H2 _]]].
  split; [apply H1 | apply H2]; reflexivity.
Defined.

Lemma named_session_has_name_witness :
  let cli := {| getDeviceEd25519Key := "ed25519-local";
                getCrossSigningId := "msk-local";
                getKeyBackupEnabled := true |} in
  let d := {| dev_deviceId := "OTHER";
              getDisplayName := Some EmptyString;
              getFingerprint := "ed25519-other" |} in
  let sig := {| deviceId := "OTHER";
                device := Some d;
                crossSigningId := None;
                valid := true;
                deviceTrust := {| isVerified := false |} |} in
  sigStatus cli sig = Some (ValidFromUnverifiedSession (Some "OTHER"))
  /\ exists d', device sig = Some d'
                /\ deviceName sig
                   = Some (or_string (getDisplayName d') (dev_deviceId d')).
Proof.
  split; [reflexivity|].
  apply (@named_session_has_name
           {| getDeviceEd25519Key := "ed25519-local";
              getCrossSigningId := "msk-local";
              getKeyBackupEnabled := true |}
           {| deviceId := "OTHER";
              device := Some {| dev_deviceId := "OTHER";
                                getDisplayName := Some EmptyString;
                                getFingerprint := "ed25519-other" |};
              crossSigningId := None;
              valid := true;
              deviceTrust := {| isVerified := false |} |}
           (ValidFromUnverifiedSession (Some "OTHER")));
    [reflexivity | simpl; lia].
Defined.

(** X4. The list shown for a trust record is the single "not signed" message
    exactly when the record has no signature; otherwise it has one message
    per signature, in the order of the signatures, and no entry is left
    without a message. *)
Theorem backupSigStatuses_rows :
  forall (cli : Client) (t : TrustInfo),
    (backupSigStatuses cli t = Unsigned <-> sigs t = [])
    /\ (sigs t <> [] ->
        exists cs : list Category,
          backupSigStatuses cli t = Statuses (map Some cs)
          /\ List.length cs = List.length (sigs t)
          /\ forall i sig,
               nth_error (sigs t) i = Some sig ->
               exists c, nth_error cs i = Some c /\ sigStatus cli sig = Some c).
Proof.
  intros cli t. unfold backupSigStatuses. split.
  - destruct (sigs t); simpl; split; intro H; try reflexivity; discriminate.
  - intro Hne.
    assert (Hall : forall l : list SigInfo,
               exists cs : list Category,
                 map (sigStatus cli) l = map Some cs
                 /\ List.length cs = List.length l
                 /\ forall i sig,
                      nth_error l i = Some sig ->
                      exists c, nth_error cs i = Some c
                                /\ sigStatus cli sig = Some c).
    { induction l as [|a l [cs [Hm [Hl Hn]]]].
      - exists []. repeat split. intros i sig H. destruct i; discriminate.
      - destruct (sigStatus_defined cli a) as [c Hc].
        exists (c :: cs). simpl. rewrite Hc, Hm, Hl. repeat split.
        intros i sig H. destruct i as [|i]; simpl in *.
        + injection H as <-. exists c. auto.
        + apply Hn. exact H. }
    destruct (Hall (sigs t)) as [cs [Hm H]].
    exists cs. split; [|exact H].
    destruct (sigs t); [contradiction|]. simpl Nat.eqb. cbv iota.
    rewrite Hm. reflexivity.
Qed.

Lemma backupSigStatuses_rows_witness :
  let cli := {| getDeviceEd25519Key := "ed25519-local";
                getCrossSigningId := "msk-local";
                getKeyBackupEnabled := true |} in
  let t := {| sigs := [ {| deviceId := "msk-local";
                           device := None;
                           crossSigningId := Some "msk-local";
                           valid := true;
                           deviceTrust := {| isVerified := false |} |} ];
              trusted_locally := false |} in
  sigs t <> []
  /\ exists cs : list Category,
       backupSigStatuses cli t = Statuses (map Some cs)
       /\ List.length cs = List.length (sigs t)
       /\ forall i sig,
            nth_error (sigs t) i = Some sig ->
            exists c, nth_error cs i = Some c /\ sigStatus cli sig = Some c.
Proof.
  split; [discriminate|].
  apply (@backupSigStatuses_rows
           {| getDeviceEd25519Key := "ed25519-local";
              getCrossSigningId := "msk-local";
              getKeyBackupEnabled := true |}
           {| sigs := [ {| deviceId := "msk-local";
                           device := None;
                           crossSigningId := Some "msk-local";
                           valid := true;
                           deviceTrust := {| isVerified := false |} |} ];
              trusted_locally := false |}).
  discriminate.
Defined.

(** ** The buttons *)

(** X5. [SetupNewBackup] is offered exactly when there is no error, no load
    under way and no backup; [Restore] exactly when there is no error, no
    load under way and a backup, under the caption chosen by whether this
    session backs up its keys.  The row never shows a button twice, has at
    most three buttons, and never offers the setup next to [Restore] or
    [Delete]. *)
Theorem primary_actions_spec :
  forall (cli : Client) (secureBackupRequired : bool) (s : IState),
    let row := actions cli secureBackupRequired s in
    (In SetupNewBackup row
     <-> error s = None /\ loading s = false /\ backupInfo s = None)
    /\ (forall cap,
          In (Restore cap) row
          <-> error s = None /\ loading s = false /\ backupInfo s <> None
              /\ cap = (if getKeyBackupEnabled cli then RestoreFromBackup
                        else ConnectThisSession))
    /\ NoDup row
    /\ (List.length row <= 3)%nat
    /\ (In SetupNewBackup row ->
        ~ In Delete row /\ forall cap, ~ In (Restore cap) row).
Proof.
  intros cli req s. cbv zeta. unfold actions.
  destruct (error s), (loading s), (backupInfo s), req,
    (getKeyBackupEnabled cli), (truthy_obool (secretStorageKeyInAccount s));
    simpl;
    repeat match goal with
           | |- _ /\ _ => split
           | |- forall _, _ => intro
           | |- _ <-> _ => split; intro
           | |- ~ _ => intro
           | |- NoDup _ => constructor; simpl
           end;
    repeat match goal with
           | H : _ \/ _ |- _ => destruct H
           | H : _ /\ _ |- _ => destruct H
           end;
    subst; try discriminate; try contradiction; try congruence; try lia;
    auto.
Qed.

(** X6. The row of buttons is left out of the page exactly when the state
    holds an error or is loading and secret storage has no key in the
    account; otherwise it holds the buttons of [actions]. *)
Theorem buttonRow_absent :
  forall (cli : Client) (secureBackupRequired : bool) (s : IState),
    let row := actions cli secureBackupRequired s in
    (buttonRow row = None
     <-> (error s <> None \/ loading s = true)
         /\ secretStorageKeyInAccount s <> Some true)
    /\ (buttonRow row <> None -> buttonRow row = Some row).
Proof.
  intros cli req s. cbv zeta. unfold buttonRow, actions.
  destruct (error s), (loading s), (backupInfo s), req,
    (secretStorageKeyInAccount s) as [[|]|]; simpl;
    repeat match goal with
           | |- _ /\ _ => split
           | |- _ <-> _ => split; intro
           | |- _ -> _ => intro
           end;
    repeat match goal with
           | H : _ \/ _ |- _ => destruct H
           | H : _ /\ _ |- _ => destruct H
           end;
    try discriminate; try congruence; auto;
    try (left; discriminate); try (right; reflexivity).
Qed.

(** ** The diagnostics on the page *)

(** X7. When the diagnostics resolve on a mounted component, the table shows
    what was fetched: the key is "in secret storage" when it is stored;
    a cached [Uint8Array] is "cached locally, well formed", a cached value
    of another type "cached locally, unexpected type", and no cached value
    "not found locally" with no remark; the rows of secret storage follow
    the two answers of secret storage.  The rows of the backup are as
    before, and the reset button is offered exactly when secret storage
    has a key. *)
Theorem statusList_after_diagnostics :
  forall (cli : Client) (secureBackupRequired : bool)
         (c : Panel) (d : DiagnosticsFetch),
    unmounted c = false ->
    in_flight AwaitDiagnostics c = true ->
    let s := state (step c (DiagnosticsSettled (Resolved d))) in
    backupKeyStoredText (statusList s)
    = (if isKeyBackupKeyStored d then InSecretStorage else NotStored)
    /\ (backupKeyCachedText (statusList s), backupKeyWellFormedText (statusList s))
       = match getSessionBackupPrivateKey d with
         | KeyAbsent => (NotFoundLocally, NoWellFormedText)
         | KeyUint8Array => (CachedLocally, WellFormed)
         | KeyOtherType => (CachedLocally, UnexpectedType)
         end
    /\ secretStorageKeyText (statusList s)
       = (if hasKey d then InAccountData else KeyNotFound)
    /\ secretStorageText (statusList s)
       = (if isSecretStorageReady d then Ready else NotReady)
    /\ extraDetailsTableRows (statusList s)
       = extraDetailsTableRows (statusList (state c))
    /\ (In ResetSecretStorage (actions cli secureBackupRequired s)
        <-> hasKey d = true).
Proof.
  intros cli req c d Hm Hf. cbv zeta. unfold step.
  rewrite (@settle_in_flight _ _ _ Hf).
  unfold getUpdatedDiagnostics_resume. simpl unmounted. rewrite Hm.
  unfold statusList, actions. simpl.
  destruct (isKeyBackupKeyStored d), (getSessionBackupPrivateKey d),
    (hasKey d), (isSecretStorageReady d); simpl;
    repeat split; intros; try discriminate; try reflexivity;
    rewrite ?in_app_iff in *; simpl in *; auto;
    match goal with
    | H : _ \/ _ |- _ => destruct H as [H|H]; [|tauto]
    end;
    destruct (truthy_obj (error (state c))), (loading (state c)),
      (truthy_obj (backupInfo (state c))), req; simpl in H;
    intuition discriminate.
Qed.

Lemma statusList_after_diagnostics_witness :
  let cli := {| getDeviceEd25519Key := "ed25519-local";
                getCrossSigningId := "msk-local";
                getKeyBackupEnabled := true |} in
  let d := {| isKeyBackupKeyStored := true;
              getSessionBackupPrivateKey := KeyOtherType;
              hasKey := false;
              isSecretStorageReady := false |} in
  let s := state (step (run constructor [Mount])
                       (DiagnosticsSettled (Resolved d))) in
  (backupKeyCachedText (statusList s), backupKeyWellFormedText (statusList s))
  = (CachedLocally, UnexpectedType)
  /\ ~ In ResetSecretStorage (actions cli false s).
Proof.
  destruct (@statusList_after_diagnostics
              {| getDeviceEd25519Key := "ed25519-local";
                 getCrossSigningId := "msk-local";
                 getKeyBackupEnabled := true |}
              false
              (run constructor [Mount])
              {| isKeyBackupKeyStored := true;
                 getSessionBackupPrivateKey := KeyOtherType;
                 hasKey := false;
                 isSecretStorageReady := false |}
              eq_refl eq_refl) as [_ [H1 [_ [_ [_ H2]]]]].
  split; [exact H1|]. intro H. apply H2 in H. discriminate H.
Defined.

(** ** What the component writes *)

Ltac settle_cases op c :=
  let Hf := fresh "Hf" in
  destruct (in_flight op c) eqn:Hf;
  [ rewrite (@settle_in_flight _ _ _ Hf)
  | rewrite (@settle_not_in_flight _ _ _ Hf) ].

Ltac one_write :=
  first [ apply w_none
        | apply w_loading
        | apply w_error
        | apply w_sessionsRemaining
        | apply w_diagnostics
        | apply w_refreshed
        | apply w_failed
        | eapply w_trans; [apply w_error | apply w_loading] ].

(** Whatever the event, the state after it is the state before it changed
    by writes of [writes]. *)
Lemma step_writes :
  forall c e, writes (state c) (state (step c e)).
Proof.
  intros c e. destruct e; unfold step.
  - one_write.
  - one_write.
  - destruct (listening c); one_write.
  - destruct (listening c); one_write.
  - one_write.
  - one_write.
  - one_write.
  - one_write.
  - settle_cases AwaitDiagnostics c; [|one_write].
    destruct r; simpl; [destruct (unmounted c)|]; one_write.
  - settle_cases AwaitCheckKeyBackup c; [|one_write].
    destruct r; simpl; [|destruct (unmounted c)]; one_write.
  - settle_cases AwaitGetKeyBackupVersion c; [|one_write].
    destruct r; simpl; [one_write|].
    unfold loadBackupStatus_catch; simpl; destruct (unmounted c); one_write.
  - settle_cases (AwaitIsKeyBackupTrusted info) c; [|one_write].
    destruct r; simpl; unfold loadBackupStatus_catch; simpl;
      destruct (unmounted c); one_write.
  - settle_cases DialogCreateKeyBackup c; one_write.
  - settle_cases DialogDeleteBackup c; [|one_write].
    unfold deleteBackup_onFinished. destruct proceed; simpl; [|one_write].
    destruct (backupInfo (state c)); one_write.
  - settle_cases DialogRestoreKeyBackup c; one_write.
  - settle_cases (AwaitDeleteKeyBackupVersion v) c; [|one_write].
    destruct r; one_write.
  - settle_cases AwaitAccessSecretStorage c; [|one_write].
    unfold resetSecretStorage_resume.
    destruct r as [u|err]; simpl; destruct (unmounted c); simpl;
      try one_write.
    exact (w_trans (w_error (state c) (Some err)) (w_loading _)).
Qed.

Lemma writes_consistent :
  forall s s', writes s s' -> consistent s -> consistent s'.
Proof.
  intros s s' H. induction H; auto; unfold consistent; simpl;
    try destruct key; intuition (try discriminate; try congruence).
Qed.

Lemma run_consistent :
  forall es c, consistent (state c) -> consistent (state (run c es)).
Proof.
  induction es as [|e es IH]; intros c H; simpl; [exact H|].
  apply IH. exact (writes_consistent (step_writes c e) H).
Qed.

(** Every state the component goes through, from its construction on, is
    [consistent]. *)
Lemma reachable_consistent :
  forall es, consistent (state (run constructor es)).
Proof.
  intro es. apply run_consistent. unfold consistent. simpl.
  intuition (try discriminate; try congruence).
Qed.

(** X8. [render] never fails on a state of the component: whatever the
    events since the construction (notifications, buttons, dialogs,
    settlements in any order, teardown included), the read of
    [backupSigStatus.sigs] finds a trust record, and the row of buttons
    rendered is the one of [actions].  The answers of the service are
    taken to carry a trust record, as their types say. *)
Theorem render_reachable :
  forall (cli : Client) (secureBackupRequired : bool) (es : list Event),
    exists v,
      render cli secureBackupRequired (state (run constructor es)) = Some v
      /\ actionRow v = actions cli secureBackupRequired (state (run constructor es)).
Proof.
  intros cli req es.
  destruct (reachable_consistent es) as [H _].
  assert (Hr : renderable (state (run constructor es)) = true).
  { unfold renderable.
    destruct (truthy_obj (error (state (run constructor es)))); [reflexivity|].
    destruct (loading (state (run constructor es))); [reflexivity|].
    destruct (backupInfo (state (run constructor es))); [|reflexivity].
    destruct (backupSigStatus (state (run constructor es))); [reflexivity|].
    exfalso. apply H; [discriminate | reflexivity]. }
  apply (render_defined cli req) in Hr. destruct Hr as [v Hv].
  exists v. split; [exact Hv|]. exact (render_actionRow _ _ _ Hv).
Qed.

(** X9. In every state of the component the five diagnostics are all [null]
    (none fetched yet) or all set; a key recorded as well formed is
    recorded as cached, so the page says "well formed" exactly when the
    state does, and its remark on the type of the key is there exactly
    when the key is "cached locally". *)
Theorem diagnostics_reachable :
  forall (es : list Event),
    let s := state (run constructor es) in
    ((backupKeyStored s = None /\ backupKeyCached s = None
      /\ backupKeyWellFormed s = None /\ secretStorageKeyInAccount s = None
      /\ secretStorageReady s = None)
     \/ (backupKeyStored s <> None /\ backupKeyCached s <> None
         /\ backupKeyWellFormed s <> None
         /\ secretStorageKeyInAccount s <> None
         /\ secretStorageReady s <> None))
    /\ (backupKeyWellFormed s = Some true -> backupKeyCached s = Some true)
    /\ (backupKeyWellFormedText (statusList s) = WellFormed
        <-> backupKeyWellFormed s = Some true)
    /\ (backupKeyWellFormedText (statusList s) <> NoWellFormedText
        <-> backupKeyCachedText (statusList s) = CachedLocally).
Proof.
  intro es. cbv zeta.
  destruct (reachable_consistent es) as [_ [H2 H3]].
  split; [exact H3|]. split; [exact H2|].
  unfold statusList. simpl.
  destruct (backupKeyCached (state (run constructor es))) as [[|]|];
    destruct (backupKeyWellFormed (state (run constructor es))) as [[|]|];
    simpl; repeat split; intros; try discriminate; try congruence;
    try (specialize (H2 eq_refl); discriminate).
Qed.

(** ** The page after a refresh *)

(** X10. When a refresh fails on a mounted component (the full check rejects,
    or either call of the quick reload does), the error is recorded and
    the page shows the message of a failed load, without details; the
    only button left is the reset, offered when the diagnostics had found
    a key of secret storage in the account. *)
Theorem render_after_failed_refresh :
  forall (cli : Client) (secureBackupRequired : bool)
         (c : Panel) (op : Pending) (e : Event) (err : JsError),
    unmounted c = false ->
    (e = CheckKeyBackupSettled (Rejected err)
     \/ e = GetKeyBackupVersionSettled (Rejected err)
     \/ exists info, e = IsKeyBackupTrustedSettled info (Rejected err)) ->
    settles e = Some op ->
    in_flight op c = true ->
    error (state (step c e)) = Some err
    /\ render cli secureBackupRequired (state (step c e))
       = Some {| statusDescription := UnableToLoad;
                 extraDetails := None;
                 actionRow :=
                   if truthy_obool (secretStorageKeyInAccount (state c))
                   then [ResetSecretStorage] else [] |}.
Proof.
  intros cli req c op e err Hm He Hs Hf.
  destruct He as [-> | [-> | [info ->]]]; simpl in Hs; injection Hs as <-;
    unfold step; rewrite (@settle_in_flight _ _ _ Hf); simpl;
    unfold loadBackupStatus_catch; simpl; rewrite Hm; simpl;
    (split; [reflexivity|]); unfold render; simpl; reflexivity.
Qed.

Lemma render_after_failed_refresh_witness :
  let cli := {| getDeviceEd25519Key := "ed25519-local";
                getCrossSigningId := "msk-local";
                getKeyBackupEnabled := true |} in
  let c := run constructor
             [ Mount;
               DiagnosticsSettled
                 (Resolved {| isKeyBackupKeyStored := false;
                              getSessionBackupPrivateKey := KeyAbsent;
                              hasKey := true;
                              isSecretStorageReady := false |}) ] in
  let err := {| message := "offline" |} in
  render cli false (state (step c (CheckKeyBackupSettled (Rejected err))))
  = Some {| statusDescription := UnableToLoad;
            extraDetails := None;
            actionRow := [ResetSecretStorage] |}.
Proof.
  apply (@render_after_failed_refresh
           {| getDeviceEd25519Key := "ed25519-local";
              getCrossSigningId := "msk-local";
              getKeyBackupEnabled := true |}
           false
           (run constructor
              [ Mount;
                DiagnosticsSettled
                  (Resolved {| isKeyBackupKeyStored := false;
                               getSessionBackupPrivateKey := KeyAbsent;
                               hasKey := true;
                               isSecretStorageReady := false |}) ])
           AwaitCheckKeyBackup
           (CheckKeyBackupSettled (Rejected {| message := "offline" |}))
           {| message := "offline" |});
    [reflexivity | left; reflexivity | reflexivity | reflexivity].
Defined.

(** X11. When both calls of a quick reload resolve on a mounted component, the
    page shows what they answered.  Without a backup: the message that keys
    are not backed up and the setup button.  With a backup: the message
    chosen by whether this session backs up its keys, the upload status
    (nothing when it does not; the number of sessions left when that number
    is positive; "all keys backed up" otherwise), the classified
    signatures of the trust record and its local-trust flag, and the
    restore button, with the delete button unless backup is mandatory.
    The reset button follows when secret storage has a key. *)
Theorem render_after_quick_reload :
  forall (cli : Client) (secureBackupRequired : bool) (c : Panel)
         (info : option IKeyBackupInfo) (t : TrustInfo),
    unmounted c = false ->
    in_flight AwaitGetKeyBackupVersion c = true ->
    let s := state (run c [ GetKeyBackupVersionSettled (Resolved info);
                            IsKeyBackupTrustedSettled info (Resolved t) ]) in
    let reset := if truthy_obool (secretStorageKeyInAccount (state c))
                 then [ResetSecretStorage] else [] in
    render cli secureBackupRequired s
    = Some
        match info with
        | None =>
            {| statusDescription := NotBackedUp;
               extraDetails := None;
               actionRow := SetupNewBackup :: reset |}
        | Some _ =>
            {| statusDescription :=
                 if getKeyBackupEnabled cli then BackingUp
                 else NotBackingUpExisting;
               extraDetails :=
                 Some {| uploadStatus :=
                           if negb (getKeyBackupEnabled cli) then NoUploadStatus
                           else if sessionsRemaining (state c) >? 0
                                then BackingUpKeys (sessionsRemaining (state c))
                                else AllKeysBackedUp;
                         sigStatuses := backupSigStatuses cli t;
                         trustedLocally := trusted_locally t |};
               actionRow :=
                 Restore (if getKeyBackupEnabled cli then RestoreFromBackup
                          else ConnectThisSession)
                   :: ((if secureBackupRequired then [] else [Delete])
                       ++ reset)%list |}
        end.
Proof.
  intros cli req c info t Hm Hf. cbv zeta.
  rewrite (quick_reload_resolved c info t Hm Hf).
  unfold render. simpl.
  destruct info as [i|]; simpl; [|reflexivity].
  destruct (getKeyBackupEnabled cli), req; reflexivity.
Qed.

Lemma render_after_quick_reload_witness :
  let cli := {| getDeviceEd25519Key := "ed25519-local";
                getCrossSigningId := "msk-local";
                getKeyBackupEnabled := true |} in
  let c := run constructor
             [ Mount; KeyBackupSessionsRemaining 5; KeyBackupStatus ] in
  let info := {| version := "1"; algorithm := "m.megolm_backup.v1" |} in
  let t := {| sigs := []; trusted_locally := true |} in
  render cli true
    (state (run c [ GetKeyBackupVersionSettled (Resolved (Some info));
                    IsKeyBackupTrustedSettled (Some info) (Resolved t) ]))
  = Some {| statusDescription := BackingUp;
            extraDetails :=
              Some {| uploadStatus := BackingUpKeys 5;
                      sigStatuses := Unsigned;
                      trustedLocally := true |};
            actionRow := [Restore RestoreFromBackup] |}.
Proof.
  apply (@render_after_quick_reload
           {| getDeviceEd25519Key := "ed25519-local";
              getCrossSigningId := "msk-local";
              getKeyBackupEnabled := true |}
           true
           (run constructor
              [ Mount; KeyBackupSessionsRemaining 5; KeyBackupStatus ])
           (Some {| version := "1"; algorithm := "m.megolm_backup.v1" |})
           {| sigs := []; trusted_locally := true |});
    reflexivity.
Defined.

(** X12. A sessions-remaining notification changes one line of the page.  If
    the page rendered before, it renders after, with the same status
    message and the same buttons; its details, when shown, keep the
    signatures and the local-trust flag, and the upload status becomes the
    one of the new count: nothing when this session does not back up its
    keys, the count when it is positive, "all keys backed up" when it is
    zero or negative. *)
Theorem sessionsRemaining_render :
  forall (cli : Client) (secureBackupRequired : bool)
         (n : Z) (c : Panel) (v : View),
    listening c = true ->
    render cli secureBackupRequired (state c) = Some v ->
    exists v',
      render cli secureBackupRequired
        (state (step c (KeyBackupSessionsRemaining n))) = Some v'
      /\ statusDescription v' = statusDescription v
      /\ actionRow v' = actionRow v
      /\ match extraDetails v, extraDetails v' with
         | None, None => True
         | Some d, Some d' =>
             sigStatuses d' = sigStatuses d
             /\ trustedLocally d' = trustedLocally d
             /\ uploadStatus d'
                = (if negb (getKeyBackupEnabled cli) then NoUploadStatus
                   else if n >? 0 then BackingUpKeys n else AllKeysBackedUp)
         | _, _ => False
         end.
Proof.
  intros cli req n c v Hl Hv. unfold step. rewrite Hl.
  destruct c as [s u l p]. destruct s as [ld er ks kc kw ka kr bi bs sr].
  unfold onKeyBackupSessionsRemaining, setState, render in *. simpl in *.
  destruct er, ld, bi, bs, (getKeyBackupEnabled cli); simpl in *;
    try discriminate Hv; injection Hv as <-;
    eexists; (split; [reflexivity|]); simpl; auto.
Qed.

Lemma sessionsRemaining_render_witness :
  let cli := {| getDeviceEd25519Key := "ed25519-local";
                getCrossSigningId := "msk-local";
                getKeyBackupEnabled := true |} in
  let c := run constructor
             [ Mount;
               CheckKeyBackupSettled
                 (Resolved
                    {| kbc_backupInfo :=
                         Some {| version := "1";
                                 algorithm := "m.megolm_backup.v1" |};
                       kbc_trustInfo :=
                         {| sigs := []; trusted_locally := false |} |}) ] in
  exists v',
    render cli false (state (step c (KeyBackupSessionsRemaining 5))) = Some v'
    /\ statusDescription v' = BackingUp
    /\ actionRow v' = [Restore RestoreFromBackup; Delete]
    /\ match extraDetails v' with
       | Some d' => uploadStatus d' = BackingUpKeys 5
       | None => False
       end.
Proof.
  destruct (@sessionsRemaining_render
              {| getDeviceEd25519Key := "ed25519-local";
                 getCrossSigningId := "msk-local";
                 getKeyBackupEnabled := true |}
              false 5
              (run constructor
                 [ Mount;
                   CheckKeyBackupSettled
                     (Resolved
                        {| kbc_backupInfo :=
                             Some {| version := "1";
                                     algorithm := "m.megolm_backup.v1" |};
                           kbc_trustInfo :=
                             {| sigs := []; trusted_locally := false |} |}) ])
              _ eq_refl eq_refl) as [v' [H1 [H2 [H3 H4]]]].
  exists v'. split; [exact H1|]. split; [exact H2|]. split; [exact H3|].
  simpl in H4. destruct (extraDetails v'); [|exact H4].
  destruct H4 as [_ [_ H4]]. exact H4.
Defined.

(** ** Teardown and subscriptions over whole runs *)

Ltac settle_goal :=
  match goal with
  | |- context [settle ?op ?k ?c] => settle_cases op c
  end.

Lemma step_unmounted :
  forall c e,
    unmounted (step c e)
    = match e with
      | Unmount _ => true
      | _ => unmounted c
      end.
Proof.
  intros c e. destruct e; unfold step; try reflexivity;
    try (destruct (listening c); reflexivity);
    settle_goal; try reflexivity.
  - destruct r; simpl; [destruct (unmounted c) eqn:Hu; simpl; auto|reflexivity].
  - destruct r; simpl; [reflexivity|].
    destruct (unmounted c) eqn:Hu; simpl; auto.
  - destruct r; simpl; [reflexivity|]. unfold loadBackupStatus_catch. simpl.
    destruct (unmounted c) eqn:Hu; simpl; auto.
  - destruct r; simpl; unfold loadBackupStatus_catch; simpl;
      destruct (unmounted c) eqn:Hu; simpl; auto.
  - unfold deleteBackup_onFinished. destruct proceed; simpl; [|reflexivity].
    destruct (backupInfo (state c)); reflexivity.
  - destruct r; reflexivity.
  - unfold resetSecretStorage_resume.
    destruct r; simpl; destruct (unmounted c) eqn:Hu; simpl; auto.
Qed.

(** X13. Teardown is final.  Once [unmounted] is set, no event clears it, so
    every later teardown test gives the same answer; and when the client
    was there to unsubscribe from, any number of notifications afterwards
    leave the component exactly as teardown left it.  Without a client the
    subscriptions are kept. *)
Theorem teardown_is_final :
  forall (c : Panel) (es : list Event),
    (unmounted c = true -> unmounted (run c es) = true)
    /\ (forallb is_notification es = true ->
        run (step c (Unmount true)) es = step c (Unmount true))
    /\ listening (step c (Unmount false)) = listening c
    /\ unmounted (step c (Unmount false)) = true.
Proof.
  intros c es. split; [|split; [|split; reflexivity]].
  - revert c. induction es as [|e es IH]; intros c H; simpl; [exact H|].
    apply IH. rewrite step_unmounted. destruct e; auto.
  - simpl. set (c0 := componentWillUnmount true c).
    assert (Hl : listening c0 = false) by reflexivity. clearbody c0.
    induction es as [|e es IH]; intro H; simpl; [reflexivity|].
    simpl in H. apply andb_prop in H. destruct H as [He Hes].
    destruct e; try discriminate He; simpl; rewrite Hl; apply IH; exact Hes.
Qed.

Lemma count_occ_remove_one_le :
  forall op x l,
    (count_occ Pending_eq_dec (remove_one op l) x
     <= count_occ Pending_eq_dec l x)%nat.
Proof.
  intros op x l. induction l as [|a l IH]; simpl; [lia|].
  destruct (Pending_eq_dec op a); simpl; destruct (Pending_eq_dec a x); lia.
Qed.

(** X14. The full check is started by mounting and by nothing else: every other
    event leaves the number of full checks in flight as it is or lowers
    it.  In particular the backup notification, which reaches a subscribed
    component, issues the diagnostics and the first call of the quick
    reload, and no full check. *)
Theorem full_check_only_on_mount :
  forall (c : Panel) (e : Event),
    let n := count_occ Pending_eq_dec (pending c) AwaitCheckKeyBackup in
    let n' :=
      count_occ Pending_eq_dec (pending (step c e)) AwaitCheckKeyBackup in
    match e with
    | Mount => n' = S n
    | _ => (n' <= n)%nat
    end
    /\ (listening c = true ->
        pending (step c KeyBackupStatus)
        = (pending c ++ [AwaitDiagnostics; AwaitGetKeyBackupVersion])%list).
Proof.
  intros c e. cbv zeta. split.
  - destruct e; unfold step;
      try (destruct (listening c));
      try settle_goal;
      try destruct r; try destruct proceed;
      unfold getUpdatedDiagnostics_resume, checkKeyBackupStatus_resume,
        loadBackupStatus_resume1, loadBackupStatus_resume2,
        loadBackupStatus_catch, deleteBackup_onFinished, deleteBackup_then,
        resetSecretStorage_resume, startNewBackup_onFinished,
        onKeyBackupStatus, onKeyBackupSessionsRemaining,
        componentDidMount, componentWillUnmount, checkKeyBackupStatus,
        loadBackupStatus, getUpdatedDiagnostics, startNewBackup,
        restoreBackup, deleteBackup, resetSecretStorage, spawn, setState;
      simpl;
      try destruct (unmounted c); try destruct (backupInfo (state c));
      simpl;
      repeat rewrite count_occ_app; simpl;
      try match goal with
          | |- context [remove_one ?op (pending c)] =>
              pose proof (count_occ_remove_one_le op AwaitCheckKeyBackup
                            (pending c))
          end;
      lia.
  - intro Hl. unfold step. rewrite Hl.
    apply (loadBackupStatus_starts c).
Qed.

(** ** Which event writes which field *)

Ltac unfold_methods :=
  unfold getUpdatedDiagnostics_resume, checkKeyBackupStatus_resume,
    loadBackupStatus_resume1, loadBackupStatus_resume2,
    loadBackupStatus_catch, deleteBackup_onFinished, deleteBackup_then,
    resetSecretStorage_resume, startNewBackup_onFinished,
    onKeyBackupStatus, onKeyBackupSessionsRemaining,
    componentDidMount, componentWillUnmount, checkKeyBackupStatus,
    loadBackupStatus, getUpdatedDiagnostics, startNewBackup,
    restoreBackup, deleteBackup, resetSecretStorage, spawn, setState.

(** X15. Each part of the state has its own writers.  [sessionsRemaining] is
    written by the sessions-remaining notification only; the five
    diagnostics by the settlement of the diagnostics only; the backup and
    its trust information only by an event that completes a refresh.  The
    diagnostics and the sessions-remaining notification in turn never
    touch [loading] or [error]: a failure of the diagnostics is not
    recorded. *)
Theorem field_writers :
  forall (c : Panel) (e : Event),
    let s := state c in
    let s' := state (step c e) in
    match e with
    | KeyBackupSessionsRemaining _ => True
    | _ => sessionsRemaining s' = sessionsRemaining s
    end
    /\ match e with
       | DiagnosticsSettled _ => True
       | _ => backupKeyStored s' = backupKeyStored s
              /\ backupKeyCached s' = backupKeyCached s
              /\ backupKeyWellFormed s' = backupKeyWellFormed s
              /\ secretStorageKeyInAccount s' = secretStorageKeyInAccount s
              /\ secretStorageReady s' = secretStorageReady s
       end
    /\ (if completes_refresh e then True
        else backupInfo s' = backupInfo s
             /\ backupSigStatus s' = backupSigStatus s)
    /\ match e with
       | DiagnosticsSettled _ | KeyBackupSessionsRemaining _ =>
           loading s' = loading s /\ error s' = error s
       | _ => True
       end.
Proof.
  intros c e. cbv zeta.
  destruct e; unfold step;
    try (destruct (listening c));
    try settle_goal;
    try destruct r; try destruct proceed;
    unfold_methods; simpl;
    try destruct (unmounted c);
    try match goal with
        | |- context [match backupInfo (state c) with _ => _ end] =>
            destruct (backupInfo (state c)) eqn:Hb
        end;
    simpl; rewrite ?Hb; auto 10.
Qed.

(** ** Overlapping refreshes *)

Lemma In_remove_one_other :
  forall op op' l, op <> op' -> In op l -> In op (remove_one op' l).
Proof.
  intros op op' l Hne. induction l as [|a l IH]; simpl; [auto|].
  intros [<- | H].
  - destruct (Pending_eq_dec op' a) as [->|_]; [congruence | left; reflexivity].
  - destruct (Pending_eq_dec op' a); [exact H | right; auto].
Qed.

(** A call in flight stays in flight while the two calls of a quick
    reload resolve, unless it is one of them. *)
Lemma quick_reload_keeps_in_flight :
  forall c op info t,
    op <> AwaitGetKeyBackupVersion ->
    op <> AwaitIsKeyBackupTrusted info ->
    in_flight AwaitGetKeyBackupVersion c = true ->
    in_flight op c = true ->
    in_flight op (run c [ GetKeyBackupVersionSettled (Resolved info);
                          IsKeyBackupTrustedSettled info (Resolved t) ])
    = true.
Proof.
  intros c op info t H1 H2 Hf Hop. unfold run, fold_left.
  unfold step at 2. rewrite (@settle_in_flight _ _ _ Hf).
  unfold loadBackupStatus_resume1.
  unfold step. rewrite (@settle_in_flight _ _ _ (in_flight_spawn _ _)).
  apply in_flight_In. apply in_flight_In in Hop.
  unfold loadBackupStatus_resume2. simpl.
  assert (Hin : In op (remove_one (AwaitIsKeyBackupTrusted info)
                         (remove_one AwaitGetKeyBackupVersion (pending c)
                          ++ [AwaitIsKeyBackupTrusted info]))).
  { apply In_remove_one_other; [exact H2|]. apply in_or_app. left.
    apply In_remove_one_other; assumption. }
  destruct (unmounted c); exact Hin.
Qed.

(** X16. Refreshes are not sequenced: with the full check and a quick reload
    both in flight on a mounted component, the state after both have
    resolved holds the answer of the one that resolved last, whichever
    was started first.  When the full check resolves first it also turns
    [loading] off while the reload is still in flight. *)
Theorem last_settlement_wins :
  forall (c : Panel) (k : KeyBackupCheck)
         (info : option IKeyBackupInfo) (t : TrustInfo),
    unmounted c = false ->
    in_flight AwaitCheckKeyBackup c = true ->
    in_flight AwaitGetKeyBackupVersion c = true ->
    let full := CheckKeyBackupSettled (Resolved k) in
    let quick := [ GetKeyBackupVersionSettled (Resolved info);
                   IsKeyBackupTrustedSettled info (Resolved t) ] in
    (backupInfo (state (run c (full :: quick))) = info
     /\ backupSigStatus (state (run c (full :: quick))) = Some t)
    /\ (backupInfo (state (run c (quick ++ [full])%list)) = kbc_backupInfo k
        /\ backupSigStatus (state (run c (quick ++ [full])%list))
           = Some (kbc_trustInfo k))
    /\ (loading (state (step c full)) = false
        /\ in_flight AwaitGetKeyBackupVersion (step c full) = true).
Proof.
  intros c k info t Hm Hc Hq. cbv zeta.
  assert (E1 : step c (CheckKeyBackupSettled (Resolved k))
               = setState [ F_loading false; F_error None;
                            F_backupInfo (kbc_backupInfo k);
                            F_backupSigStatus (Some (kbc_trustInfo k)) ]
                   {| state := state c; unmounted := unmounted c;
                      listening := listening c;
                      pending := remove_one AwaitCheckKeyBackup (pending c) |}).
  { unfold step. rewrite (@settle_in_flight _ _ _ Hc). reflexivity. }
  assert (Hq1 : in_flight AwaitGetKeyBackupVersion
                  (step c (CheckKeyBackupSettled (Resolved k))) = true).
  { rewrite E1. apply in_flight_In. simpl.
    apply In_remove_one_other; [discriminate|].
    apply in_flight_In. exact Hq. }
  assert (Hm1 : unmounted (step c (CheckKeyBackupSettled (Resolved k))) = false)
    by (rewrite E1; exact Hm).
  split; [|split].
  - change (run c (CheckKeyBackupSettled (Resolved k)
                   :: [ GetKeyBackupVersionSettled (Resolved info);
                        IsKeyBackupTrustedSettled info (Resolved t) ]))
      with (run (step c (CheckKeyBackupSettled (Resolved k)))
              [ GetKeyBackupVersionSettled (Resolved info);
                IsKeyBackupTrustedSettled info (Resolved t) ]).
    rewrite (quick_reload_resolved _ info t Hm1 Hq1). simpl.
    split; reflexivity.
  - assert (Hc2 : in_flight AwaitCheckKeyBackup
                    (run c [ GetKeyBackupVersionSettled (Resolved info);
                             IsKeyBackupTrustedSettled info (Resolved t) ])
                  = true)
      by (apply quick_reload_keeps_in_flight; try discriminate; assumption).
    change (run c ([ GetKeyBackupVersionSettled (Resolved info);
                     IsKeyBackupTrustedSettled info (Resolved t) ]
                   ++ [CheckKeyBackupSettled (Resolved k)])%list)
      with (step (run c [ GetKeyBackupVersionSettled (Resolved info);
                          IsKeyBackupTrustedSettled info (Resolved t) ])
              (CheckKeyBackupSettled (Resolved k))).
    set (c2 := run c [ GetKeyBackupVersionSettled (Resolved info);
                       IsKeyBackupTrustedSettled info (Resolved t) ]) in *.
    unfold step. rewrite (@settle_in_flight _ _ _ Hc2). simpl.
    split; reflexivity.
  - split; [rewrite E1; reflexivity | exact Hq1].
Qed.

Lemma last_settlement_wins_witness :
  let c := run constructor [Mount; KeyBackupStatus] in
  let k := {| kbc_backupInfo :=
                Some {| version := "1"; algorithm := "m.megolm_backup.v1" |};
              kbc_trustInfo := {| sigs := []; trusted_locally := false |} |} in
  let t := {| sigs := []; trusted_locally := true |} in
  let full := CheckKeyBackupSettled (Resolved k) in
  let quick := [ GetKeyBackupVersionSettled (Resolved None);
                 IsKeyBackupTrustedSettled None (Resolved t) ] in
  backupInfo (state (run c (full :: quick))) = None
  /\ backupInfo (state (run c (quick ++ [full])%list)) = kbc_backupInfo k.
Proof.
  destruct (@last_settlement_wins
              (run constructor [Mount; KeyBackupStatus])
              {| kbc_backupInfo :=
                   Some {| version := "1";
                           algorithm := "m.megolm_backup.v1" |};
                 kbc_trustInfo := {| sigs := []; trusted_locally := false |} |}
              None
              {| sigs := []; trusted_locally := true |}
              eq_refl eq_refl eq_refl) as [[H1 _] [[H2 _] _]].
  split; [exact H1 | exact H2].
Defined.

(** ** Deleting a backup *)

(** X17. The answer to the confirmation dialog.  Declined: the dialog is gone
    and nothing else has changed.  Confirmed with a backup recorded:
    [loading] is set and the deletion is requested for the version
    recorded at that moment, which is the version the state holds when
    the user confirms and not when the button was pressed.  Confirmed with
    no backup recorded any more: [loading] is set and no request is
    issued. *)
Theorem delete_confirmation :
  forall (c : Panel) (proceed : bool),
    in_flight DialogDeleteBackup c = true ->
    let c' := step c (DeleteDialogFinished proceed) in
    let rest := remove_one DialogDeleteBackup (pending c) in
    unmounted c' = unmounted c
    /\ listening c' = listening c
    /\ match proceed, backupInfo (state c) with
       | false, _ => state c' = state c /\ pending c' = rest
       | true, Some info =>
           state c' = assign (state c) (F_loading true)
           /\ pending c'
              = (rest ++ [AwaitDeleteKeyBackupVersion (version info)])%list
       | true, None =>
           state c' = assign (state c) (F_loading true)
           /\ pending c' = rest
       end.
Proof.
  intros c proceed Hf. cbv zeta. unfold step.
  rewrite (@settle_in_flight _ _ _ Hf). unfold deleteBackup_onFinished.
  destruct proceed; simpl; [|repeat split].
  destruct (backupInfo (state c)) eqn:Hb; simpl; rewrite ?Hb; repeat split.
Qed.

Lemma delete_confirmation_witness :
  let c :=
    run constructor
      [ Mount;
        CheckKeyBackupSettled
          (Resolved
             {| kbc_backupInfo :=
                  Some {| version := "1"; algorithm := "m.megolm_backup.v1" |};
                kbc_trustInfo := {| sigs := []; trusted_locally := false |} |});
        ClickDelete;
        KeyBackupStatus;
        GetKeyBackupVersionSettled
          (Resolved
             (Some {| version := "2"; algorithm := "m.megolm_backup.v1" |}));
        IsKeyBackupTrustedSettled
          (Some {| version := "2"; algorithm := "m.megolm_backup.v1" |})
          (Resolved {| sigs := []; trusted_locally := false |}) ] in
  In (AwaitDeleteKeyBackupVersion "2")
     (pending (step c (DeleteDialogFinished true))).
Proof.
  cbv zeta.
  set (c := run constructor _).
  pose proof (@delete_confirmation c true eq_refl) as H.
  cbv zeta in H. destruct H as [_ [_ H]].
  assert (Hb : backupInfo (state c)
               = Some {| version := "2"; algorithm := "m.megolm_backup.v1" |})
    by reflexivity.
  rewrite Hb in H. destruct H as [_ H].
  rewrite H. apply in_or_app. right. left. reflexivity.
Defined.

(** X18. A deletion that succeeds, from the button to the page.  On a mounted
    component showing a backup, the user presses delete and confirms, and
    the service deletes the recorded version: the quick reload is started
    with [loading] set.  When the reload finds no backup, the state has no
    backup, no error and is not loading, and the page offers the setup and
    neither restore nor delete. *)
Theorem delete_then_reload :
  forall (cli : Client) (secureBackupRequired : bool) (c : Panel)
         (info : IKeyBackupInfo) (t : TrustInfo),
    unmounted c = false ->
    backupInfo (state c) = Some info ->
    let c1 := run c [ ClickDelete; DeleteDialogFinished true;
                      DeleteKeyBackupVersionSettled (version info)
                        (Resolved tt) ] in
    let c2 := run c1 [ GetKeyBackupVersionSettled (Resolved None);
                       IsKeyBackupTrustedSettled None (Resolved t) ] in
    (loading (state c1) = true
     /\ in_flight AwaitGetKeyBackupVersion c1 = true)
    /\ (loading (state c2) = false /\ error (state c2) = None
        /\ backupInfo (state c2) = None)
    /\ (In SetupNewBackup (actions cli secureBackupRequired (state c2))
        /\ ~ In Delete (actions cli secureBackupRequired (state c2))
        /\ forall cap,
             ~ In (Restore cap) (actions cli secureBackupRequired (state c2))).
Proof.
  intros cli req c info t Hm Hb c1 c2.
  assert (E1 : exists c0, c1 = loadBackupStatus c0 /\ unmounted c0 = false).
  { unfold c1, run, fold_left.
    change (step c ClickDelete) with (deleteBackup c).
    assert (Hd : in_flight DialogDeleteBackup (deleteBackup c) = true)
      by apply in_flight_spawn.
    unfold step at 2. rewrite (@settle_in_flight _ _ _ Hd).
    unfold deleteBackup_onFinished. simpl negb. cbv iota. cbv zeta.
    change (backupInfo (state (setState [F_loading true] _)))
      with (backupInfo (state c)).
    rewrite Hb.
    unfold step.
    rewrite (@settle_in_flight _ _ _ (in_flight_spawn _ _)).
    unfold deleteBackup_then. eexists. split; [reflexivity | exact Hm]. }
  destruct E1 as [c0 [E1 Hm0]].
  assert (Hm1 : unmounted c1 = false) by (rewrite E1; exact Hm0).
  assert (Hf1 : in_flight AwaitGetKeyBackupVersion c1 = true)
    by (rewrite E1; apply in_flight_spawn).
  assert (E2 := quick_reload_resolved c1 None t Hm1 Hf1).
  fold c2 in E2.
  split; [split; [rewrite E1; reflexivity | exact Hf1]|].
  split; [rewrite E2; simpl; auto|].
  unfold actions. rewrite E2. simpl.
  destruct (truthy_obool (secretStorageKeyInAccount (state c1))); simpl;
    repeat split; auto; intros; intuition discriminate.
Qed.

Lemma delete_then_reload_witness :
  let cli := {| getDeviceEd25519Key := "ed25519-local";
                getCrossSigningId := "msk-local";
                getKeyBackupEnabled := true |} in
  let info := {| version := "1"; algorithm := "m.megolm_backup.v1" |} in
  let t := {| sigs := []; trusted_locally := false |} in
  let c := run constructor
             [ Mount;
               CheckKeyBackupSettled
                 (Resolved {| kbc_backupInfo := Some info;
                              kbc_trustInfo := t |}) ] in
  let c1 := run c [ ClickDelete; DeleteDialogFinished true;
                    DeleteKeyBackupVersionSettled "1" (Resolved tt) ] in
  let c2 := run c1 [ GetKeyBackupVersionSettled (Resolved None);
                     IsKeyBackupTrustedSettled None (Resolved t) ] in
  unmounted c = false
  /\ In SetupNewBackup (actions cli false (state c2)).
Proof.
  split; [reflexivity|].
  destruct (@delete_then_reload
              {| getDeviceEd25519Key := "ed25519-local";
                 getCrossSigningId := "msk-local";
                 getKeyBackupEnabled := true |}
              false
              (run constructor
                 [ Mount;
                   CheckKeyBackupSettled
                     (Resolved
                        {| kbc_backupInfo :=
                             Some {| version := "1";
                                     algorithm := "m.megolm_backup.v1" |};
                           kbc_trustInfo :=
                             {| sigs := []; trusted_locally := false |} |}) ])
              {| version := "1"; algorithm := "m.megolm_backup.v1" |}
              {| sigs := []; trusted_locally := false |}
              eq_refl eq_refl) as [_ [_ [H _]]].
  exact H.
Defined.

(** ** Resetting secret storage *)

(** X19. Pressing reset clears a recorded error at once, before the reset has
    an outcome, and leaves [loading] alone.  When the reset then succeeds
    on a mounted component, no error is written, [loading] is set and the
    quick reload is started, diagnostics included. *)
Theorem reset_success :
  forall (c : Panel),
    unmounted c = false ->
    let c1 := step c ClickReset in
    let c2 := step c1 (AccessSecretStorageSettled (Resolved tt)) in
    (error (state c1) = None
     /\ loading (state c1) = loading (state c)
     /\ backupInfo (state c1) = backupInfo (state c)
     /\ in_flight AwaitAccessSecretStorage c1 = true)
    /\ (error (state c2) = None
        /\ loading (state c2) = true
        /\ in_flight AwaitDiagnostics c2 = true
        /\ in_flight AwaitGetKeyBackupVersion c2 = true).
Proof.
  intros c Hm c1 c2.
  assert (Hf : in_flight AwaitAccessSecretStorage c1 = true)
    by apply in_flight_spawn.
  split; [repeat split; exact Hf|].
  unfold c2, step. rewrite (@settle_in_flight _ _ _ Hf).
  unfold resetSecretStorage_resume. simpl unmounted. rewrite Hm.
  split; [reflexivity|]. split; [reflexivity|].
  split; [|apply in_flight_spawn].
  unfold loadBackupStatus. apply in_flight_spawn_other. apply in_flight_spawn.
Qed.

Lemma reset_success_witness :
  let c := run constructor
             [ Mount;
               CheckKeyBackupSettled (Rejected {| message := "offline" |}) ] in
  error (state c) = Some {| message := "offline" |}
  /\ error (state (step c ClickReset)) = None
  /\ loading
       (state (step (step c ClickReset)
                    (AccessSecretStorageSettled (Resolved tt)))) = true.
Proof.
  split; [reflexivity|].
  destruct (@reset_success
              (run constructor
                 [ Mount;
                   CheckKeyBackupSettled
                     (Rejected {| message := "offline" |}) ])
              eq_refl) as [[H1 _] [_ [H2 _]]].
  split; [exact H1 | exact H2].
Defined.

(** ** Work that ends after teardown *)


